(** * chat_with_claude.py: the conversation orchestration protocol

    A shallow embedding of [_standalone_scripts/chat_with_claude.py]: the
    Python values the script handles, the operations it applies to them, the
    functions [send_message], [search_web], [execute_tool],
    [process_tool_use_response], [display_response] and [main], and the
    properties of the transcript they maintain. *)

From Stdlib Require Import String Ascii List ZArith Bool Arith Lia.
From Stdlib Require Import SpecFloat DecimalString.
Import ListNotations.
Open Scope list_scope.
Open Scope string_scope.
Set Warnings "-register-all".

(** ** Python values

    Everything the script manipulates is what [json] produces: [None], booleans,
    integers, floats, strings, lists and dicts.  A dict is kept as the list of
    its items in insertion order; lookup takes the first item with the key.
    A string is kept as the bytes of its UTF-8 encoding. *)

Inductive json : Type :=
| JNull
| JBool (b : bool)
| JInt (n : Z)
| JFloat (f : spec_float)
| JStr (s : string)
| JList (l : list json)
| JDict (d : list (string * json)).

(** [bool(v)]: the truth value Python gives [v] in [if v] and [if not v]. *)
Definition truthy (v : json) : bool :=
  match v with
  | JNull => false
  | JBool b => b
  | JInt n => negb (n =? 0)%Z
  | JFloat (S754_zero _) => false
  | JFloat _ => true
  | JStr s => negb (s =? "")
  | JList l => match l with [] => false | _ :: _ => true end
  | JDict d => match d with [] => false | _ :: _ => true end
  end.

(** [type(v).__name__] *)
Definition type_name (v : json) : string :=
  match v with
  | JNull => "NoneType"
  | JBool _ => "bool"
  | JInt _ => "int"
  | JFloat _ => "float"
  | JStr _ => "str"
  | JList _ => "list"
  | JDict _ => "dict"
  end.

(** [v == 'literal']: only a string compares equal to a string. *)
Definition eq_str (v : json) (lit : string) : bool :=
  match v with
  | JStr s => s =? lit
  | _ => false
  end.

(** ** Exceptions

    The classes the script can meet.  The [requests] ones all derive from
    [requests.exceptions.RequestException]; [JSONDecodeError] is the one
    that [response.json()] raises as of requests 2.27, where earlier versions
    let the decoder's [ValueError] through.  [KeyboardInterrupt] and
    [SystemExit] are the two classes here that do not derive from
    [Exception]. *)

Inductive exception_class : Type :=
| AttributeError
| TypeError
| IndexError
| KeyError
| ValueError
| EOFError
| KeyboardInterrupt
| SystemExit
| ConnectionError
| Timeout
| HTTPError
| JSONDecodeError
| OtherRequestException
| OtherException.

Record exn : Type := mkExn {
  exn_class : exception_class;
  exn_str : string;                (* str(e) *)
  exn_response : option string     (* e.response.text when e.response is not None *)
}.

Definition is_RequestException (e : exn) : bool :=
  match exn_class e with
  | ConnectionError | Timeout | HTTPError | JSONDecodeError
  | OtherRequestException => true
  | _ => false
  end.

Definition is_Exception (e : exn) : bool :=
  match exn_class e with
  | KeyboardInterrupt | SystemExit => false
  | _ => true
  end.

Inductive result (A : Type) : Type :=
| Ok (a : A)
| Raise (e : exn).
Arguments Ok {A} a.
Arguments Raise {A} e.

Definition no_attribute (v : json) (attr : string) : exn :=
  mkExn AttributeError
        ("'" ++ type_name v ++ "' object has no attribute '" ++ attr ++ "'")
        None.

Definition not_iterable (v : json) : exn :=
  mkExn TypeError ("'" ++ type_name v ++ "' object is not iterable") None.

Definition not_a_container (v : json) : exn :=
  mkExn TypeError
        ("argument of type '" ++ type_name v ++ "' is not iterable") None.

Definition index_out_of_range : exn :=
  mkExn IndexError "list index out of range" None.

Definition pop_from_empty : exn :=
  mkExn IndexError "pop from empty list" None.

Definition key_error (key : string) : exn :=
  mkExn KeyError ("'" ++ key ++ "'") None.

(** ** Operations on values *)

Fixpoint lookup (key : string) (d : list (string * json)) : option json :=
  match d with
  | [] => None
  | (k, v) :: d' => if k =? key then Some v else lookup key d'
  end.

(** [v.get(key, default)]: only dicts have [get]. *)
Definition py_get (v : json) (key : string) (default : json) : result json :=
  match v with
  | JDict d => Ok (match lookup key d with Some x => x | None => default end)
  | _ => Raise (no_attribute v "get")
  end.

(** [v[key]] for a string key *)
Definition py_subscript (v : json) (key : string) : result json :=
  match v with
  | JDict d => match lookup key d with
               | Some x => Ok x
               | None => Raise (key_error key)
               end
  | _ => Raise (mkExn TypeError
                      ("'" ++ type_name v ++ "' object is not subscriptable")
                      None)
  end.

(** [l[i]] on a list of strings *)
Definition py_index (l : list string) (i : nat) : result string :=
  match nth_error l i with
  | Some x => Ok x
  | None => Raise index_out_of_range
  end.

Fixpoint chars (s : string) : list json :=
  match s with
  | EmptyString => []
  | String c s' => JStr (String c EmptyString) :: chars s'
  end.

(** What [for x in v] runs through: the elements of a list, the characters of
    a string, the keys of a dict; anything else is not iterable. *)
Definition py_iter (v : json) : result (list json) :=
  match v with
  | JList l => Ok l
  | JStr s => Ok (chars s)
  | JDict d => Ok (map (fun kv => JStr (fst kv)) d)
  | _ => Raise (not_iterable v)
  end.

(** *** Strings *)

Fixpoint starts_with (p s : string) : bool :=
  match p, s with
  | EmptyString, _ => true
  | String a p', String b s' => Ascii.eqb a b && starts_with p' s'
  | String _ _, EmptyString => false
  end.

(** [sub in s] *)
Fixpoint contains (sub s : string) : bool :=
  starts_with sub s ||
  match s with
  | EmptyString => false
  | String _ s' => contains sub s'
  end.

(** [s.split(sep)] for a non-empty [sep]: [skip] counts the characters of a
    separator just matched that are still to be passed over, [cur] is the
    piece being read. *)
Fixpoint split_from (sep : string) (skip : nat) (cur : string) (s : string)
  : list string :=
  match s with
  | EmptyString => [cur]
  | String c s' =>
      match skip with
      | S k => split_from sep k cur s'
      | O =>
          if starts_with sep s
          then cur :: split_from sep (String.length sep - 1) "" s'
          else split_from sep 0 (cur ++ String c "") s'
      end
  end.

Definition split (s sep : string) : list string := split_from sep 0 "" s.

Fixpoint join (sep : string) (l : list string) : string :=
  match l with
  | [] => ""
  | [x] => x
  | x :: l' => x ++ sep ++ join sep l'
  end.

(** [s.replace(old, new)] for a non-empty [old] *)
Definition replace (s old new : string) : string := join new (split s old).

(** A string is kept as the bytes of its UTF-8 encoding.  [characters s]
    cuts them into the characters they encode: a byte with the continuation
    bytes (128..191) that follow it. *)
Definition is_continuation (c : ascii) : bool :=
  let n := nat_of_ascii c in (128 <=? n)%nat && (n <=? 191)%nat.

Definition continues (ch : string) : bool :=
  match ch with
  | String c _ => is_continuation c
  | EmptyString => false
  end.

Fixpoint characters (s : string) : list string :=
  match s with
  | EmptyString => []
  | String c s' =>
      match characters s' with
      | ch :: l =>
          if continues ch then String c ch :: l
          else String c EmptyString :: ch :: l
      | [] => [String c EmptyString]
      end
  end.

Definition utf8 (bytes : list nat) : string :=
  string_of_list_ascii (map ascii_of_nat bytes).

(** The characters [str.strip()] removes, those for which [str.isspace()]
    holds: U+0009..U+000D, U+001C..U+001F, the space, U+0085, U+00A0, U+1680,
    U+2000..U+200A, U+2028, U+2029, U+202F, U+205F and U+3000. *)
Definition WHITESPACE : list string :=
  map utf8
      [[9]; [10]; [11]; [12]; [13]; [28]; [29]; [30]; [31]; [32];
       [194; 133]; [194; 160]; [225; 154; 128];
       [226; 128; 128]; [226; 128; 129]; [226; 128; 130]; [226; 128; 131];
       [226; 128; 132]; [226; 128; 133]; [226; 128; 134]; [226; 128; 135];
       [226; 128; 136]; [226; 128; 137]; [226; 128; 138];
       [226; 128; 168]; [226; 128; 169]; [226; 128; 175];
       [226; 129; 159]; [227; 128; 128]]%nat.

Definition is_space (ch : string) : bool :=
  existsb (String.eqb ch) WHITESPACE.

Fixpoint lstrip (l : list string) : list string :=
  match l with
  | ch :: l' => if is_space ch then lstrip l' else l
  | [] => []
  end.

Definition rstrip (l : list string) : list string := rev (lstrip (rev l)).

(** [s.strip()] *)
Definition strip (s : string) : string :=
  join "" (rstrip (lstrip (characters s))).

Definition lower_char (c : ascii) : ascii :=
  let n := nat_of_ascii c in
  if (65 <=? n)%nat && (n <=? 90)%nat then ascii_of_nat (n + 32) else c.

(** [s.lower()] on the letters A..Z.  The script only compares the result
    with the words [exit], [quit], [q] and [reset], and no character beyond
    A..Z lowers into one of their letters (the one that lowers into a letter
    at all is the Kelvin sign, into [k]). *)
Fixpoint lower (s : string) : string :=
  match s with
  | EmptyString => EmptyString
  | String c s' => String (lower_char c) (lower s')
  end.

(** ['literal' in v]: a substring of a string, an element of a list, a key of
    a dict; other values are no containers. *)
Definition py_in (lit : string) (v : json) : result bool :=
  match v with
  | JStr s => Ok (contains lit s)
  | JList l => Ok (existsb (fun x => eq_str x lit) l)
  | JDict d => Ok (existsb (fun kv => fst kv =? lit) d)
  | _ => Raise (not_a_container v)
  end.

(** ** The world outside the script *)

(** What [requests.post] hands back: the status line, the body as text and
    what [response.json()] makes of it (the decoded value, or the exception
    it raises when the body does not decode). *)
Record response : Type := mkResponse {
  status_code : Z;
  reason : string;
  text : string;
  body : json + exn
}.

Inductive post_result : Type :=
| Responds (r : response)
| PostRaises (e : exn).

(** The environment a run depends on: the service answering the n-th request
    of the run, the clock read after n requests, and the Python built-ins
    the script calls on arbitrary values: [repr] (what an f-string makes of
    a value that is not a string), [json.dumps] and [json.dumps(.., indent=2)]. *)
Record env : Type := mkEnv {
  requests_post : nat -> string -> json -> json -> post_result;
  time_time : nat -> spec_float;
  repr : json -> string;
  json_dumps : json -> string;
  json_dumps_indent2 : json -> string
}.

(** What a run does that can be seen from outside: lines printed, lines read
    at a prompt, requests sent, and entries into [execute_tool]. *)
Inductive event : Type :=
| Printed (line : string)
| Prompted (prompt line : string)
| Posted (url : string) (headers payload : json)
| Executing (tool_name tool_input : json).

(** The mutable state: the one [conversation] list that [main] creates and
    every function appends to or pops from, the events so far and the
    number of requests sent. *)
Record state : Type := mkState {
  conversation : list json;
  trace : list event;
  requests_made : nat
}.

(** ** Statements: state passing with exceptions

    A raised exception keeps the state reached when it was raised. *)

Definition M (A : Type) : Type := state -> result A * state.

Definition ret {A : Type} (a : A) : M A := fun s => (Ok a, s).

Definition bind {A B : Type} (m : M A) (k : A -> M B) : M B :=
  fun s => match m s with
           | (Ok a, s') => k a s'
           | (Raise e, s') => (Raise e, s')
           end.

Definition raise {A : Type} (e : exn) : M A := fun s => (Raise e, s).

Definition lift {A : Type} (r : result A) : M A := fun s => (r, s).

Declare Scope stmt_scope.
Delimit Scope stmt_scope with stmt.
Notation "x <- m ;; k" := (bind m (fun x => k))
  (at level 100, m at next level, right associativity) : stmt_scope.
Notation "m ;; k" := (bind m (fun _ => k))
  (at level 100, right associativity) : stmt_scope.
Open Scope stmt_scope.

(** [try: m except Exception as e: h e] *)
Definition try_except {A : Type} (m : M A) (h : exn -> M A) : M A :=
  fun s => match m s with
           | (Raise e, s') => if is_Exception e then h e s' else (Raise e, s')
           | ok => ok
           end.

(** [try: m except requests.exceptions.RequestException as e: h e] *)
Definition try_except_RequestException {A : Type} (m : M A) (h : exn -> M A)
  : M A :=
  fun s => match m s with
           | (Raise e, s') =>
               if is_RequestException e then h e s' else (Raise e, s')
           | ok => ok
           end.

Definition emit (ev : event) : M unit :=
  fun s => (Ok tt, mkState (conversation s) (trace s ++ [ev]) (requests_made s)).

Definition print (line : string) : M unit := emit (Printed line).

Definition get_conversation : M (list json) :=
  fun s => (Ok (conversation s), s).

Definition set_conversation (c : list json) : M unit :=
  fun s => (Ok tt, mkState c (trace s) (requests_made s)).

(** [conversation.append(m)] *)
Definition append (m : json) : M unit :=
  fun s => (Ok tt, mkState (conversation s ++ [m]) (trace s) (requests_made s)).

(** [conversation.pop()] *)
Definition pop : M unit :=
  fun s => match conversation s with
           | [] => (Raise pop_from_empty, s)
           | _ :: _ =>
               (Ok tt, mkState (removelast (conversation s)) (trace s)
                               (requests_made s))
           end.

Fixpoint for_each {A : Type} (f : A -> M unit) (l : list A) : M unit :=
  match l with
  | [] => ret tt
  | x :: l' => f x ;; for_each f l'
  end.

(** ** Constants *)

Definition ESC : string := String "027" EmptyString.
Definition NL : string := String "010" EmptyString.

(** colorama *)
Definition Fore_RED : string := ESC ++ "[31m".
Definition Fore_GREEN : string := ESC ++ "[32m".
Definition Fore_YELLOW : string := ESC ++ "[33m".
Definition Fore_BLUE : string := ESC ++ "[34m".
Definition Fore_CYAN : string := ESC ++ "[36m".
Definition Style_RESET_ALL : string := ESC ++ "[0m".

Definition MODEL_ID : string := "claude-3-7-sonnet-20250219".

Definition TOOLS : json :=
  JList [
    JDict [
      ("name", JStr "search_web");
      ("description", JStr "Search the web for information (simulated)");
      ("input_schema", JDict [
        ("type", JStr "object");
        ("properties", JDict [
          ("query", JDict [
            ("type", JStr "string");
            ("description", JStr "The search query")
          ])
        ]);
        ("required", JList [JStr "query"])
      ])
    ]
  ].

(** ** The [requests] calls [send_message] makes *)

Definition decimal (n : Z) : string :=
  DecimalString.NilZero.string_of_int (Z.to_int n).

(** [response.raise_for_status()]: statuses 400..599 raise [HTTPError], which
    carries the response. *)
Definition raise_for_status (url : string) (r : response) : result unit :=
  let n := status_code r in
  if (400 <=? n)%Z && (n <? 500)%Z then
    Raise (mkExn HTTPError
                 (decimal n ++ " Client Error: " ++ reason r ++ " for url: " ++ url)
                 (Some (text r)))
  else if (500 <=? n)%Z && (n <? 600)%Z then
    Raise (mkExn HTTPError
                 (decimal n ++ " Server Error: " ++ reason r ++ " for url: " ++ url)
                 (Some (text r)))
  else Ok tt.

(** [response.json()] *)
Definition response_json (r : response) : result json :=
  match body r with
  | inl v => Ok v
  | inr e => Raise e
  end.

(** The request [send_message] builds: its [url], [headers] and [payload]
    (the key ["tools"] is set only when [include_tools] holds). *)
Definition API_URL : string := "https://api.anthropic.com/v1/messages".

Definition request_headers (api_key : json) : json :=
  JDict [
    ("x-api-key", api_key);
    ("anthropic-version", JStr "2023-06-01");
    ("content-type", JStr "application/json")
  ].

Definition request_payload (messages : list json) (include_tools : bool)
  : json :=
  let payload := [
    ("model", JStr MODEL_ID);
    ("max_tokens", JInt 1024);
    ("messages", JList messages)
  ] in
  JDict (if include_tools then (payload ++ [("tools", TOOLS)])%list
         else payload).

(** ** The script *)

Section Script.

Variable E : env.

(** What an f-string puts for [{v}] *)
Definition py_str (v : json) : string :=
  match v with
  | JStr s => s
  | _ => repr E v
  end.

(** [requests.post(url, headers=headers, json=payload)] *)
Definition post (url : string) (headers payload : json) : M response :=
  fun s =>
    let s' := mkState (conversation s)
                      (trace s ++ [Posted url headers payload])
                      (S (requests_made s)) in
    match requests_post E (requests_made s) url headers payload with
    | Responds r => (Ok r, s')
    | PostRaises e => (Raise e, s')
    end.

Definition send_message (api_key : json) (messages : list json)
           (include_tools : bool) : M json :=
  let url := API_URL in
  let headers := request_headers api_key in
  let payload := request_payload messages include_tools in
  try_except_RequestException
    (response <- post url headers payload ;;
     lift (raise_for_status url response) ;;
     lift (response_json response))
    (fun e =>
       print (Fore_RED ++ "API request failed: " ++ exn_str e ++ Style_RESET_ALL) ;;
       match exn_response e with
       | Some text =>
           print (Fore_YELLOW ++ "Response: " ++ text ++ Style_RESET_ALL)
       | None => ret tt
       end ;;
       ret JNull).

Definition format_response (content : json) : json :=
  match content with
  | JStr s => JStr (replace s "\n" NL)
  | _ => content
  end.

(** [time.time()] *)
Definition now : M spec_float :=
  fun s => (Ok (time_time E (requests_made s)), s).

Definition search_web (params : json) : M json :=
  query <- lift (py_get params "query" (JStr "")) ;;
  let q := py_str query in
  let results := [
    JDict [
      ("title", JStr ("Result 1 for " ++ q));
      ("snippet", JStr ("This is a simulated search result for '" ++ q ++
         "'. It contains some relevant information about the topic."))
    ];
    JDict [
      ("title", JStr ("Result 2 for " ++ q));
      ("snippet", JStr ("Another simulated result related to '" ++ q ++
         "'. This would typically come from a search engine."))
    ];
    JDict [
      ("title", JStr ("Result 3 for " ++ q));
      ("snippet", JStr ("A third simulated search result for '" ++ q ++
         "'. In a real implementation, this would contain actual web search results."))
    ]
  ] in
  t <- now ;;
  ret (JDict [
    ("query", query);
    ("results", JList results);
    ("search_time", JFloat t);
    ("result_count", JInt (Z.of_nat (List.length results)))
  ]).

Definition execute_tool (tool_name tool_input : json) : M json :=
  (* the entry into the function, put on record *)
  emit (Executing tool_name tool_input) ;;
  print (Fore_YELLOW ++ "Executing tool: " ++ py_str tool_name ++ Style_RESET_ALL) ;;
  try_except
    (if eq_str tool_name "search_web" then
       search_web tool_input
     else
       print (Fore_RED ++ "Unknown tool: " ++ py_str tool_name ++ Style_RESET_ALL) ;;
       ret (JDict [("error", JStr ("Unknown tool: " ++ py_str tool_name))]))
    (fun e =>
       let error_message : string :=
         "Error executing tool " ++ py_str tool_name ++ ": " ++ exn_str e in
       print (Fore_RED ++ error_message ++ Style_RESET_ALL) ;;
       ret (JDict [("error", JStr error_message)])).

(** The body of the loop of [display_response] *)
Definition display_content (content : json) : M unit :=
  ty <- lift (py_get content "type" JNull) ;;
  if eq_str ty "text" then
    text <- lift (py_get content "text" (JStr "")) ;;
    has_open <- lift (py_in "<thinking>" text) ;;
    has_both <- (if has_open : bool then lift (py_in "</thinking>" text)
                 else ret false) ;;
    text <- (if has_both : bool then
               match text with
               | JStr s =>
                   after <- lift (py_index (split s "<thinking>") 1) ;;
                   inside <- lift (py_index (split after "</thinking>") 0) ;;
                   let thinking := strip inside in
                   print (Fore_YELLOW ++ "Claude's thinking: " ++ thinking ++
                          Style_RESET_ALL) ;;
                   ret (JStr (strip (replace s
                          ("<thinking>" ++ thinking ++ "</thinking>") "")))
               | _ => raise (no_attribute text "split")
               end
             else ret text) ;;
    if truthy text then
      print (Fore_BLUE ++ "Claude: " ++ Style_RESET_ALL ++
             py_str (format_response text))
    else ret tt
  else ret tt.

Definition display_response (response_data : json) : M unit :=
  content <- lift (py_get response_data "content" (JList [])) ;;
  items <- lift (py_iter content) ;;
  for_each display_content items.

(** The search loop that opens [process_tool_use_response]: the first item
    whose type is ['tool_use'], [None] when there is none. *)
Fixpoint first_tool_use (items : list json) : result json :=
  match items with
  | [] => Ok JNull
  | content :: rest =>
      match py_get content "type" JNull with
      | Raise e => Raise e
      | Ok ty => if eq_str ty "tool_use" then Ok content
                 else first_tool_use rest
      end
  end.

(** [while len(conversation) > len(conversation_copy): conversation.pop()];
    [fuel] bounds the number of turns of the loop. *)
Fixpoint restore_loop (fuel : nat) (conversation_copy : list json) : M unit :=
  match fuel with
  | O => ret tt
  | S fuel' =>
      conv <- get_conversation ;;
      if (List.length conversation_copy <? List.length conv)%nat then
        pop ;; restore_loop fuel' conversation_copy
      else ret tt
  end.

(** The loop run with as many turns as the conversation has messages, which
    is all it can use (see [restore_exits]). *)
Definition restore (conversation_copy : list json) : M unit :=
  conv <- get_conversation ;;
  restore_loop (List.length conv) conversation_copy.

Definition assistant_message (content : json) : json :=
  JDict [("role", JStr "assistant"); ("content", content)].

Definition tool_result_message (tool_id : json) (tool_result : json)
           (is_error : bool) : json :=
  JDict [
    ("role", JStr "user");
    ("content", JList [
      JDict [
        ("type", JStr "tool_result");
        ("tool_use_id", tool_id);
        ("content", JStr (json_dumps E tool_result));
        ("is_error", JBool is_error)
      ]
    ])
  ].

(** The second half of [process_tool_use_response], from the test of the
    tool's result on: what is done with [tool_result] once [execute_tool]
    has returned it. *)
Definition forward_tool_result (api_key response_data : json)
           (conversation_copy : list json) (tool_id tool_result : json)
  : M json :=
  is_error <- lift (py_in "error" tool_result) ;;
  (if is_error : bool then
     err <- lift (py_subscript tool_result "error") ;;
     print (Fore_RED ++ "Tool execution error: " ++ py_str err ++
            Style_RESET_ALL)
   else ret tt) ;;
  content <- lift (py_get response_data "content" (JList [])) ;;
  append (assistant_message content) ;;
  append (tool_result_message tool_id tool_result is_error) ;;
  print (Fore_YELLOW ++ "Sending tool result to Claude..." ++ Style_RESET_ALL) ;;
  try_except
    (conv <- get_conversation ;;
     final_response <- send_message api_key conv true ;;
     (if truthy final_response then
        content <- lift (py_get final_response "content" (JList [])) ;;
        append (assistant_message content) ;;
        display_response final_response
      else
        print (Fore_RED ++ "Failed to get final response after tool use" ++
               Style_RESET_ALL) ;;
        print (Fore_YELLOW ++ "Attempting conversation recovery..." ++
               Style_RESET_ALL) ;;
        restore conversation_copy ;;
        print (Fore_GREEN ++ "Conversation state recovered. Please try again." ++
               Style_RESET_ALL)) ;;
     ret final_response)
    (fun e =>
       print (Fore_RED ++ "Error during tool result handling: " ++ exn_str e ++
              Style_RESET_ALL) ;;
       print (Fore_YELLOW ++ "Restoring conversation state..." ++
              Style_RESET_ALL) ;;
       restore conversation_copy ;;
       print (Fore_GREEN ++ "Conversation state recovered. Please try again." ++
              Style_RESET_ALL) ;;
       ret JNull).

Definition process_tool_use_response (api_key response_data : json) : M json :=
  content <- lift (py_get response_data "content" (JList [])) ;;
  items <- lift (py_iter content) ;;
  tool_use <- lift (first_tool_use items) ;;
  if negb (truthy tool_use) then
    print (Fore_RED ++ "Tool use indicated but no tool_use content found" ++
           Style_RESET_ALL) ;;
    content <- lift (py_get response_data "content" (JList [])) ;;
    append (assistant_message content) ;;
    ret JNull
  else
    (* conversation.copy(): a list of its own, holding the same messages *)
    conversation_copy <- get_conversation ;;
    tool_name <- lift (py_get tool_use "name" JNull) ;;
    tool_input <- lift (py_get tool_use "input" (JDict [])) ;;
    tool_id <- lift (py_get tool_use "id" JNull) ;;
    print (Fore_BLUE ++ "Claude wants to use tool: " ++ py_str tool_name ++
           Style_RESET_ALL) ;;
    print (Fore_BLUE ++ "Tool input: " ++ json_dumps_indent2 E tool_input ++
           Style_RESET_ALL) ;;
    tool_result <- execute_tool tool_name tool_input ;;
    forward_tool_result api_key response_data conversation_copy tool_id
                        tool_result.

Definition user_message (user_input : string) : json :=
  JDict [("role", JStr "user"); ("content", JStr user_input)].

(** The [try] statement that makes the body of the loop of [main]: one user
    input, from the append of the user message to the return to the prompt. *)
Definition cycle (api_key : json) (user_input : string) : M unit :=
  try_except
    (append (user_message user_input) ;;
     print (Fore_YELLOW ++ "Claude is thinking..." ++ Style_RESET_ALL) ;;
     conv <- get_conversation ;;
     response_data <- send_message api_key conv true ;;
     if negb (truthy response_data) then
       print (Fore_RED ++ "Failed to get a response from Claude." ++
              Style_RESET_ALL) ;;
       print (Fore_YELLOW ++
              "Try typing 'reset' to clear the conversation history." ++
              Style_RESET_ALL ++ NL)
     else
       stop_reason <- lift (py_get response_data "stop_reason" JNull) ;;
       (if eq_str stop_reason "tool_use" then
          display_response response_data ;;
          process_tool_use_response api_key response_data ;;
          ret tt
        else
          display_response response_data ;;
          content <- lift (py_get response_data "content" (JList [])) ;;
          append (assistant_message content)) ;;
       print "")
    (fun e =>
       print (Fore_RED ++ "An error occurred: " ++ exn_str e ++ Style_RESET_ALL) ;;
       print (Fore_YELLOW ++
              "Try typing 'reset' to clear the conversation history." ++
              Style_RESET_ALL ++ NL)).

(** [input(prompt)]: the next line typed, [EOFError] when there is none. *)
Definition input (prompt : string) (lines : list string) : M string :=
  match lines with
  | [] => raise (mkExn EOFError "EOF when reading a line" None)
  | l :: _ => emit (Prompted prompt l) ;; ret l
  end.

(** The [while True] loop of [main], over the lines typed at the prompt. *)
Fixpoint main_loop (api_key : json) (lines : list string) : M unit :=
  user_input <- input (Fore_GREEN ++ "You: " ++ Style_RESET_ALL) lines ;;
  match lines with
  | [] => ret tt
  | _ :: rest =>
      if existsb (String.eqb (lower user_input)) ["exit"; "quit"; "q"] then
        print (Fore_YELLOW ++ "Ending conversation. Goodbye!" ++ Style_RESET_ALL)
      else if lower user_input =? "reset" then
        set_conversation [] ;;
        print (Fore_YELLOW ++ "Conversation history has been reset." ++
               Style_RESET_ALL) ;;
        main_loop api_key rest
      else
        cycle api_key user_input ;;
        main_loop api_key rest
  end.

(** [main], from the key that [load_api_key] returned *)
Definition main (api_key : json) (lines : list string) : M unit :=
  print (NL ++ Fore_GREEN ++ "=== Chat with Claude 3.7 Sonnet with Tools ===" ++
         Style_RESET_ALL) ;;
  print (Fore_CYAN ++ "Type your messages and press Enter to send." ++
         Style_RESET_ALL) ;;
  print (Fore_CYAN ++ "Type 'exit', 'quit', or 'q' to end the conversation." ++
         Style_RESET_ALL) ;;
  print (Fore_CYAN ++ "Type 'reset' to reset the conversation history." ++
         Style_RESET_ALL) ;;
  print (Fore_CYAN ++ "Available tools: search_web" ++ Style_RESET_ALL ++ NL) ;;
  (if negb (truthy api_key) then
     print (Fore_RED ++ "No API key found in secrets.yaml" ++ Style_RESET_ALL) ;;
     raise (mkExn SystemExit "1" None)
   else ret tt) ;;
  set_conversation [] ;;
  main_loop api_key lines.

End Script.

(** ** The start of [main]: the key file *)

(** [load_api_key], given what opening [SECRETS_FILE] and [yaml.safe_load]
    came to: the document read, or the exception one of the two raised. *)
Definition load_api_key (loaded : result json) : M json :=
  try_except
    (secrets <- lift loaded ;;
     lift (py_get secrets "anthropic_api_key" JNull))
    (fun e =>
       print (Fore_RED ++ "Error loading API key: " ++ exn_str e ++
              Style_RESET_ALL) ;;
       raise (mkExn SystemExit "1" None)).

(** [main] whole, from its first line: the banner, the key, the loop. *)
Definition main_script (E : env) (loaded : result json) (lines : list string)
  : M unit :=
  print (NL ++ Fore_GREEN ++ "=== Chat with Claude 3.7 Sonnet with Tools ===" ++
         Style_RESET_ALL) ;;
  print (Fore_CYAN ++ "Type your messages and press Enter to send." ++
         Style_RESET_ALL) ;;
  print (Fore_CYAN ++ "Type 'exit', 'quit', or 'q' to end the conversation." ++
         Style_RESET_ALL) ;;
  print (Fore_CYAN ++ "Type 'reset' to reset the conversation history." ++
         Style_RESET_ALL) ;;
  print (Fore_CYAN ++ "Available tools: search_web" ++ Style_RESET_ALL ++ NL) ;;
  api_key <- load_api_key loaded ;;
  (if negb (truthy api_key) then
     print (Fore_RED ++ "No API key found in secrets.yaml" ++ Style_RESET_ALL) ;;
     raise (mkExn SystemExit "1" None)
   else ret tt) ;;
  set_conversation [] ;;
  main_loop E api_key lines.

(** Lines and values of the start and of the loop *)
Definition banner : list string := [
  NL ++ Fore_GREEN ++ "=== Chat with Claude 3.7 Sonnet with Tools ===" ++
    Style_RESET_ALL;
  Fore_CYAN ++ "Type your messages and press Enter to send." ++ Style_RESET_ALL;
  Fore_CYAN ++ "Type 'exit', 'quit', or 'q' to end the conversation." ++
    Style_RESET_ALL;
  Fore_CYAN ++ "Type 'reset' to reset the conversation history." ++
    Style_RESET_ALL;
  Fore_CYAN ++ "Available tools: search_web" ++ Style_RESET_ALL ++ NL
].
Definition no_key_line : string :=
  Fore_RED ++ "No API key found in secrets.yaml" ++ Style_RESET_ALL.
Definition load_error_line (e : exn) : string :=
  Fore_RED ++ "Error loading API key: " ++ exn_str e ++ Style_RESET_ALL.
Definition exit_1 : exn := mkExn SystemExit "1" None.
Definition end_of_input : exn := mkExn EOFError "EOF when reading a line" None.
Definition prompt : string := Fore_GREEN ++ "You: " ++ Style_RESET_ALL.
Definition goodbye_line : string :=
  Fore_YELLOW ++ "Ending conversation. Goodbye!" ++ Style_RESET_ALL.
Definition reset_line : string :=
  Fore_YELLOW ++ "Conversation history has been reset." ++ Style_RESET_ALL.

(** [c not in s] for a character *)
Fixpoint free_of (c : ascii) (s : string) : bool :=
  match s with
  | EmptyString => true
  | String x s' => negb (Ascii.eqb x c) && free_of c s'
  end.

(** [user_input.lower() in ['exit', 'quit', 'q']] and
    [user_input.lower() == 'reset'] *)
Definition is_exit (user_input : string) : bool :=
  existsb (String.eqb (lower user_input)) ["exit"; "quit"; "q"].
Definition is_reset (user_input : string) : bool :=
  lower user_input =? "reset".

(** ** Replies, transcripts and runs: the notions the properties speak of *)

(** A state with more events in its trace *)
Definition log (evs : list event) (s : state) : state :=
  mkState (conversation s) (trace s ++ evs) (requests_made s).

(** The tool calls of a trace, as (name, input), and its requests, as
    payloads, in order *)
Fixpoint executions (tr : list event) : list (json * json) :=
  match tr with
  | [] => []
  | Executing tool_name tool_input :: tr' =>
      (tool_name, tool_input) :: executions tr'
  | _ :: tr' => executions tr'
  end.

Fixpoint requests (tr : list event) : list json :=
  match tr with
  | [] => []
  | Posted _ _ payload :: tr' => payload :: requests tr'
  | _ :: tr' => requests tr'
  end.

(** [b] is a dict whose type is [ty] *)
Definition has_type (ty : string) (b : json) : bool :=
  match py_get b "type" JNull with
  | Ok t => eq_str t ty
  | Raise _ => false
  end.

(** A content block: a dict; a text block holds a string, if anything, as
    its text. *)
Definition is_block (b : json) : bool :=
  match b with
  | JDict _ =>
      if has_type "text" b then
        match py_get b "text" (JStr "") with
        | Ok (JStr _) => true
        | _ => false
        end
      else true
  | _ => false
  end.

(** A reply: a dict whose content, if any, is a list of content blocks. *)
Definition is_reply (v : json) : bool :=
  match py_get v "content" (JList []) with
  | Ok (JList l) => forallb is_block l
  | _ => false
  end.

(** The content of a reply that is one, as [response_data.get('content', [])]
    gives it *)
Definition content_of (v : json) : json :=
  match py_get v "content" (JList []) with
  | Ok c => c
  | Raise _ => JList []
  end.

Definition blocks_of (v : json) : list json :=
  match content_of v with
  | JList l => l
  | _ => []
  end.

(** The tool-invocation blocks of a reply, in order *)
Definition tool_use_blocks (v : json) : list json :=
  filter (has_type "tool_use") (blocks_of v).

(** The stop reason of [v] is ['tool_use'] *)
Definition stops_for_tool (v : json) : bool :=
  match py_get v "stop_reason" JNull with
  | Ok r => eq_str r "tool_use"
  | Raise _ => false
  end.

(** The name, arguments and correlation id [process_tool_use_response] reads
    off a block *)
Definition name_of (b : json) : json :=
  match py_get b "name" JNull with Ok x => x | Raise _ => JNull end.
Definition input_of (b : json) : json :=
  match py_get b "input" (JDict []) with Ok x => x | Raise _ => JNull end.
Definition id_of (b : json) : json :=
  match py_get b "id" JNull with Ok x => x | Raise _ => JNull end.

(** What the [try] block of [send_message] evaluates to, given what
    [requests.post] did *)
Definition attempt (o : post_result) : result json :=
  match o with
  | PostRaises e => Raise e
  | Responds r =>
      match raise_for_status API_URL r with
      | Raise e => Raise e
      | Ok _ => response_json r
      end
  end.

(** What [send_message] makes of it: a [RequestException] becomes [None]. *)
Definition received (o : post_result) : result json :=
  match attempt o with
  | Ok v => Ok v
  | Raise e => if is_RequestException e then Ok JNull else Raise e
  end.

(** The lines [send_message] prints about a request: none unless a
    [RequestException] was raised, then its message and, if it carries a
    response, the text of the response. *)
Definition diagnostic (o : post_result) : list string :=
  match attempt o with
  | Ok _ => []
  | Raise e =>
      if is_RequestException e then
        (Fore_RED ++ "API request failed: " ++ exn_str e ++ Style_RESET_ALL) ::
        match exn_response e with
        | Some text => [Fore_YELLOW ++ "Response: " ++ text ++ Style_RESET_ALL]
        | None => []
        end
      else []
  end.

(** Lines of [main] and [process_tool_use_response] *)
Definition thinking_line : string :=
  Fore_YELLOW ++ "Claude is thinking..." ++ Style_RESET_ALL.
Definition no_response_line : string :=
  Fore_RED ++ "Failed to get a response from Claude." ++ Style_RESET_ALL.
Definition reset_hint_line : string :=
  Fore_YELLOW ++ "Try typing 'reset' to clear the conversation history." ++
  Style_RESET_ALL ++ NL.
Definition anomaly_line : string :=
  Fore_RED ++ "Tool use indicated but no tool_use content found" ++
  Style_RESET_ALL.
Definition error_line (e : exn) : string :=
  Fore_RED ++ "An error occurred: " ++ exn_str e ++ Style_RESET_ALL.

(** The failures of the transport that [send_message] handles: the request
    raised one of the [requests] exceptions (connection refused, timeout,
    ...), the status is one that [raise_for_status] refuses, or the body
    does not decode and what [response.json()] raises is one of the
    [requests] exceptions. *)
Inductive transport_failure : post_result -> Prop :=
| connection_error : forall e,
    is_RequestException e = true -> transport_failure (PostRaises e)
| error_status : forall r,
    (400 <= status_code r < 600)%Z -> transport_failure (Responds r)
| malformed_body : forall r e,
    ~ (400 <= status_code r < 600)%Z -> body r = inr e ->
    is_RequestException e = true ->
    transport_failure (Responds r).

(** The value [execute_tool] returns when [n] requests have been made (the
    clock is read as of then) *)
Definition tool_outcome (E : env) (n : nat) (tool_name tool_input : json)
  : json :=
  match fst (execute_tool E tool_name tool_input (mkState [] [] n)) with
  | Ok v => v
  | Raise _ => JNull
  end.

(** ['error' in tool_result] for a dict *)
Definition has_error_key (tool_result : json) : bool :=
  match tool_result with
  | JDict d => existsb (fun kv => fst kv =? "error") d
  | _ => false
  end.

(** [m] is an assistant turn with a tool-invocation block whose id is [id] *)
Definition invokes (m id : json) : Prop :=
  exists d blocks b,
    m = JDict d /\
    lookup "role" d = Some (JStr "assistant") /\
    lookup "content" d = Some (JList blocks) /\
    In b blocks /\ has_type "tool_use" b = true /\ id_of b = id.

(** [m] is a tool-result turn for the invocation [id] *)
Definition answers (m id : json) : Prop :=
  exists d b,
    m = JDict d /\
    lookup "role" d = Some (JStr "user") /\
    lookup "content" d = Some (JList [b]) /\
    has_type "tool_result" b = true /\
    py_get b "tool_use_id" JNull = Ok id.

(** No orphan tool turns: every turn that invokes a tool is immediately
    followed by a turn that answers the invocation. *)
Fixpoint no_orphans (conv : list json) : Prop :=
  match conv with
  | [] => True
  | m :: rest =>
      (forall id, invokes m id ->
                  match rest with
                  | [] => False
                  | m' :: _ => answers m' id
                  end) /\
      no_orphans rest
  end.

(** The request carries a tool result as its last message: it is the
    follow-up request of a cycle. *)
Definition is_follow_up (payload : json) : bool :=
  match py_get payload "messages" (JList []) with
  | Ok (JList msgs) =>
      match py_get (last msgs JNull) "content" JNull with
      | Ok (JList _) => true
      | _ => false
      end
  | _ => false
  end.

(** A service that asks for one tool at a time, says so in the stop reason,
    and does not ask again when it is given the result. *)
Definition restrained_reply (payload v : json) : bool :=
  match tool_use_blocks v with
  | [] => true
  | [_] => stops_for_tool v && negb (is_follow_up payload)
  | _ => false
  end.

Definition restrained (E : env) : Prop :=
  forall n url headers payload v,
    attempt (requests_post E n url headers payload) = Ok v ->
    restrained_reply payload v = true.

(** A result that an [except Exception] clause does not let through: a value,
    or an exception that derives from [Exception].  For [main] these are the
    runs that ended at the prompt, by an exit command or for want of a line;
    an interrupt ends the run wherever it strikes. *)
Definition catchable {A : Type} (r : result A) : Prop :=
  match r with
  | Ok _ => True
  | Raise e => is_Exception e = true
  end.

(** What the search that opens [process_tool_use_response] ends with *)
Definition first_tool_use_of (v : json) : result json :=
  match py_get v "content" (JList []) with
  | Raise e => Raise e
  | Ok c => match py_iter c with
            | Raise e => Raise e
            | Ok items => first_tool_use items
            end
  end.

(** How [forward_tool_result] leaves the conversation [conv] and what it
    returns, [r], when [sent] are the messages of the follow-up request,
    [copy] the conversation saved before, and [got] what came of the request:
    a reply is appended; anything else restores the copy, except an
    interrupt, which leaves everything as it is. *)
Definition forwarded (copy sent : list json) (got r : result json)
           (conv : list json) : Prop :=
  match got with
  | Raise e =>
      if is_Exception e then r = Ok JNull /\ conv = copy
      else r = Raise e /\ conv = sent
  | Ok w =>
      if truthy w then
        (r = Ok w /\ conv = (sent ++ [assistant_message (content_of w)])%list) \/
        (is_reply w = false /\ r = Ok JNull /\ conv = copy)
      else r = Ok w /\ conv = copy
  end.

(** ** Environments for the scenarios

    A service that answers from a script, a clock that stands still, and a
    plain rendering of values for [repr] and [json.dumps]: strings without
    escapes, every float as [0.0]. *)

Definition QUOTE : string := String "034" EmptyString.

Fixpoint render (v : json) : string :=
  match v with
  | JNull => "null"
  | JBool true => "true"
  | JBool false => "false"
  | JInt n => decimal n
  | JFloat _ => "0.0"
  | JStr s => QUOTE ++ s ++ QUOTE
  | JList l => "[" ++ join ", " (map render l) ++ "]"
  | JDict d =>
      "{" ++ join ", " (map (fun kv => match kv with
                                       | (k, x) => QUOTE ++ k ++ QUOTE ++ ": " ++ render x
                                       end) d) ++ "}"
  end.

Definition scripted (script : list post_result) : env :=
  mkEnv (fun n _ _ _ =>
           nth n script
               (PostRaises (mkExn ConnectionError "Connection refused" None)))
        (fun _ => S754_zero false)
        render render render.

Definition ok_response (v : json) : post_result :=
  Responds (mkResponse 200 "OK" (render v) (inl v)).

Definition initial : state := mkState [] [] 0.

Definition text_block (s : string) : json :=
  JDict [("type", JStr "text"); ("text", JStr s)].

Definition tool_use_block (id name : string) (input : json) : json :=
  JDict [("type", JStr "tool_use"); ("id", JStr id); ("name", JStr name);
         ("input", input)].

Definition reply (stop_reason : string) (content : list json) : json :=
  JDict [("role", JStr "assistant"); ("content", JList content);
         ("stop_reason", JStr stop_reason)].

Definition cats_request : json :=
  reply "tool_use"
        [text_block "Let me search."; 
         tool_use_block "tu_1" "search_web" (JDict [("query", JStr "cats")])].

Definition key : json := JStr "sk-test".

(** A service that asks for a search whenever it is sent a user's text and
    answers in words once it has the result. *)
Definition searching : env :=
  mkEnv (fun _ _ _ payload =>
           if is_follow_up payload
           then ok_response (reply "end_turn" [text_block "Cats sleep a lot."])
           else ok_response cats_request)
        (fun _ => S754_zero false)
        render render render.

Definition dogs_request : json :=
  reply "tool_use"
        [tool_use_block "tu_2" "search_web" (JDict [("query", JStr "dogs")])].

Definition unavailable : post_result :=
  Responds (mkResponse 503 "Service Unavailable" "overloaded"
                       (inr (mkExn JSONDecodeError
                                   "Expecting value: line 1 column 1 (char 0)"
                                   None))).



Definition weather_request : json :=
  reply "tool_use" [tool_use_block "tu_9" "get_weather" (JDict [])].

(** Two tool-invocation blocks in one reply *)
Definition cats_and_dogs_request : json :=
  reply "tool_use"
        [tool_use_block "tu_1" "search_web" (JDict [("query", JStr "cats")]);
         tool_use_block "tu_2" "search_web" (JDict [("query", JStr "dogs")])].

(** A reply cut short by the token limit in the middle of a tool request *)
Definition cut_short : json :=
  reply "max_tokens"
        [tool_use_block "tu_3" "search_web" (JDict [("query", JStr "ca")])].

Definition words : json := reply "end_turn" [text_block "Cats sleep a lot."].

(** Three services: one asks for a second tool when given the result of the
    first, one asks for two tools in one reply, one is cut short. *)
Definition asks_again : env :=
  scripted [ok_response cats_request; ok_response dogs_request].
Definition asks_for_two : env :=
  scripted [ok_response cats_and_dogs_request; ok_response words].
Definition cuts_short : env := scripted [ok_response cut_short].

(** The run of [main] on one line, up to the prompt for the next *)
Definition one_line (E : env) : result unit * state :=
  main E key ["search for cats"] initial.

Definition puzzled : json := reply "tool_use" [text_block "Let me see."].

(** A text block that shows its reasoning *)
Definition pondering : json :=
  text_block "Well. <thinking> cats first </thinking>Cats sleep a lot.".

(** Bodies that are no reply: the empty mapping, a list *)
Definition empty_body : post_result := ok_response (JDict []).
Definition list_body : post_result := ok_response (JList [JInt 1]).

(** One line answered in words, then the prompt *)
Definition greeted : state :=
  snd (main_loop (scripted [ok_response words]) key ["hello"] initial).

(** * Properties *)

(** ** Strings *)

Example split_ex : split "a<t>b<t>c" "<t>" = ["a"; "b"; "c"].
Proof. reflexivity. Qed.
Example split_ex2 : split "<t>b<t>" "<t>" = [""; "b"; ""].
Proof. reflexivity. Qed.
Example replace_ex : replace "x--y--" "--" "+" = "x+y+".
Proof. reflexivity. Qed.
Example strip_ex : strip "  a b  " = "a b".
Proof. reflexivity. Qed.
Example strip_nbsp :
  strip (utf8 [194; 160; 32] ++ "plan" ++ utf8 [226; 128; 131; 10; 194; 160]) =
  "plan".
Proof. reflexivity. Qed.
Example strip_inner :
  strip (" a" ++ utf8 [194; 160] ++ "b" ++ utf8 [195; 160; 32]) =
  "a" ++ utf8 [194; 160] ++ "b" ++ utf8 [195; 160].
Proof. reflexivity. Qed.
Example lower_ex : lower "ReSeT" = "reset".
Proof. reflexivity. Qed.

Lemma split_from_cons (sep : string) (s : string) :
  forall skip cur, exists x l, split_from sep skip cur s = x :: l.
Proof.
  induction s as [|c s IH]; intros skip cur; cbn [split_from].
  - eauto.
  - destruct skip as [|k].
    + destruct (starts_with sep (String c s)); eauto.
    + apply IH.
Qed.

Lemma split_two (a : ascii) (p s : string) :
  forall cur, contains (String a p) s = true ->
              exists x y l, split_from (String a p) 0 cur s = x :: y :: l.
Proof.
  induction s as [|c s IH]; intros cur H.
  - discriminate H.
  - cbn [contains] in H. cbn [split_from].
    destruct (starts_with (String a p) (String c s)) eqn:Hp.
    + destruct (split_from_cons (String a p) s
                  (String.length (String a p) - 1) "") as (y & l & Hy).
      rewrite Hy. eauto.
    + cbn [orb] in H. apply IH. exact H.
Qed.

Lemma py_index_second (s : string) :
  contains "<thinking>" s = true ->
  exists after, py_index (split s "<thinking>") 1 = Ok after.
Proof.
  intros H. destruct (split_two _ _ _ "" H) as (x & y & l & Hs).
  unfold split. rewrite Hs. exists y. reflexivity.
Qed.

Lemma py_index_first (s sep : string) :
  exists inside, py_index (split s sep) 0 = Ok inside.
Proof.
  destruct (split_from_cons sep s 0 "") as (x & l & Hs).
  unfold split. rewrite Hs. exists x. reflexivity.
Qed.

(** ** Statements *)

Ltac run :=
  unfold bind, ret, lift, raise, print, emit, append, get_conversation,
         set_conversation;
  cbn [conversation trace requests_made fst snd for_each].

Ltac tidy :=
  unfold log; cbn [conversation trace requests_made fst snd map];
  rewrite <- ?app_assoc; cbn [app].

Lemma bind_ok {A B : Type} (m : M A) (k : A -> M B) (s s1 : state) (a : A) :
  m s = (Ok a, s1) -> bind m k s = k a s1.
Proof. intros H. unfold bind. now rewrite H. Qed.

Lemma log_log (a b : list event) (s : state) :
  log b (log a s) = log (a ++ b) s.
Proof. unfold log; cbn. now rewrite app_assoc. Qed.

Lemma log_nil (s : state) : log [] s = s.
Proof. destruct s; unfold log; cbn. now rewrite app_nil_r. Qed.

Lemma catchable_get (v : json) (k : string) (d : json) :
  catchable (py_get v k d).
Proof. destruct v; exact I || reflexivity. Qed.

Lemma catchable_iter (v : json) : catchable (py_iter v).
Proof. destruct v; exact I || reflexivity. Qed.

Section Correctness.

Variable E : env.

(** *** [display_response] only prints; it raises nothing on a reply *)

(** Closes the run of a statement that has only printed: the result [r] and
    the lines are given, the third part of the goal is left. *)
Tactic Notation "ends" open_constr(r) open_constr(lines) :=
  exists r, lines; cbn [map]; rewrite ?log_nil; unfold log; run;
  rewrite <- ?app_assoc; cbn [app];
  split; [reflexivity | split; [first [exact I | reflexivity | assumption] | ]].

Lemma display_content_prints (content : json) (s : state) :
  exists r lines,
    display_content E content s = (r, log (map Printed lines) s) /\
    catchable r /\ (is_block content = true -> r = Ok tt).
Proof.
  unfold display_content, is_block, has_type.
  destruct (py_get content "type" JNull) as [ty|e] eqn:Hty.
  2:{ destruct content; try discriminate Hty;
      injection Hty as <-; ends (Raise _) []; discriminate. }
  run. destruct (eq_str ty "text") eqn:Htext.
  2:{ ends (Ok tt) []. reflexivity. }
  destruct (py_get content "text" (JStr "")) as [text|e] eqn:Htx.
  2:{ destruct content; discriminate. }
  destruct text as [ |b|n|f|t|l|d]; cbn [py_in]; run.
  - ends (Raise _) []. destruct content; discriminate.
  - ends (Raise _) []. destruct content; discriminate.
  - ends (Raise _) []. destruct content; discriminate.
  - ends (Raise _) []. destruct content; discriminate.
  - (* the text is a string *)
    destruct (contains "<thinking>" t) eqn:Ho; run.
    + destruct (contains "</thinking>" t) eqn:Hc; run.
      * destruct (py_index_second t Ho) as (after & Ha). rewrite Ha.
        destruct (py_index_first after "</thinking>") as (inside & Hi).
        rewrite Hi. run.
        match goal with
        | |- context [truthy ?x] => destruct (truthy x)
        end.
        -- ends (Ok tt) [_; _]. reflexivity.
        -- ends (Ok tt) [_]. reflexivity.
      * destruct (truthy (JStr t)).
        -- ends (Ok tt) [_]. reflexivity.
        -- ends (Ok tt) []. reflexivity.
    + destruct (truthy (JStr t)).
      * ends (Ok tt) [_]. reflexivity.
      * ends (Ok tt) []. reflexivity.
  - (* a list: it has no [split] *)
    destruct (existsb (fun x => eq_str x "<thinking>") l).
    + destruct (existsb (fun x => eq_str x "</thinking>") l).
      * ends (Raise _) []. destruct content; discriminate.
      * destruct (truthy (JList l)).
        -- ends (Ok tt) [_]. reflexivity.
        -- ends (Ok tt) []. reflexivity.
    + destruct (truthy (JList l)).
      * ends (Ok tt) [_]. reflexivity.
      * ends (Ok tt) []. reflexivity.
  - (* a dict: no [split] either *)
    destruct (existsb (fun kv => fst kv =? "<thinking>") d).
    + destruct (existsb (fun kv => fst kv =? "</thinking>") d).
      * ends (Raise _) []. destruct content; discriminate.
      * destruct (truthy (JDict d)).
        -- ends (Ok tt) [_]. reflexivity.
        -- ends (Ok tt) []. reflexivity.
    + destruct (truthy (JDict d)).
      * ends (Ok tt) [_]. reflexivity.
      * ends (Ok tt) []. reflexivity.
Qed.

Lemma display_items_print (items : list json) :
  forall s, exists r lines,
    for_each (display_content E) items s = (r, log (map Printed lines) s) /\
    catchable r /\ (forallb is_block items = true -> r = Ok tt).
Proof.
  induction items as [|b items IH]; intros s.
  - ends (Ok tt) []. reflexivity.
  - cbn [for_each forallb]. unfold bind.
    destruct (display_content_prints b s) as (r1 & l1 & H1 & C1 & B1).
    rewrite H1. destruct r1 as [[]|e].
    + destruct (IH (log (map Printed l1) s)) as (r2 & l2 & H2 & C2 & B2).
      rewrite H2. exists r2, (l1 ++ l2)%list.
      rewrite log_log, map_app. split; [reflexivity|]. split; [exact C2|].
      intros H. apply andb_prop in H. tauto.
    + exists (Raise e), l1. split; [reflexivity|]. split; [exact C1|].
      intros H. apply andb_prop in H. destruct H as [H _].
      discriminate (B1 H).
Qed.

Lemma display_response_prints (response_data : json) (s : state) :
  exists r lines,
    display_response E response_data s = (r, log (map Printed lines) s) /\
    catchable r /\ (is_reply response_data = true -> r = Ok tt).
Proof.
  unfold display_response, is_reply.
  pose proof (catchable_get response_data "content" (JList [])) as Cg.
  destruct (py_get response_data "content" (JList [])) as [c|e].
  2:{ ends (Raise e) []. discriminate. }
  pose proof (catchable_iter c) as Ci.
  run. destruct (py_iter c) as [items|e] eqn:Hi.
  2:{ ends (Raise e) []. destruct c; discriminate. }
  destruct (display_items_print items s) as (r & lines & H & C & B).
  exists r, lines. split; [exact H|]. split; [exact C|].
  destruct c; try discriminate. injection Hi as <-. exact B.
Qed.

(** *** [send_message] sends one request and turns what comes of it into a
    value, unless what was raised is no [RequestException] *)

Lemma send_message_sends (api_key : json) (messages : list json)
      (include_tools : bool) (s : state) :
  let payload := request_payload messages include_tools in
  let o := requests_post E (requests_made s) API_URL
                         (request_headers api_key) payload in
  send_message E api_key messages include_tools s =
  (received o,
   mkState (conversation s)
           (trace s ++ Posted API_URL (request_headers api_key) payload
                    :: map Printed (diagnostic o))
           (S (requests_made s))).
Proof.
  intros payload o. subst o.
  unfold send_message, try_except_RequestException, post, received, diagnostic,
    attempt.
  fold payload. run.
  destruct (requests_post E (requests_made s) API_URL (request_headers api_key)
                          payload) as [r|e].
  - destruct (raise_for_status API_URL r) as [[]|e] eqn:Hs.
    + unfold response_json.
      destruct (body r) as [v|e]; [reflexivity|].
      destruct (is_RequestException e); [|reflexivity].
      run. destruct (exn_response e); run; tidy; reflexivity.
    + assert (He : is_RequestException e = true /\
                   exists t, exn_response e = Some t).
      { unfold raise_for_status in Hs.
        destruct ((400 <=? status_code r)%Z && (status_code r <? 500)%Z);
          [injection Hs as <-; split; [reflexivity|eexists; reflexivity]|].
        destruct ((500 <=? status_code r)%Z && (status_code r <? 600)%Z);
          [injection Hs as <-; split; [reflexivity|eexists; reflexivity]|].
        discriminate. }
      destruct He as (He & t & Ht). rewrite He, Ht. run. tidy. reflexivity.
  - destruct (is_RequestException e).
    + run. destruct (exn_response e); run; tidy; reflexivity.
    + reflexivity.
Qed.

(** *** Traces *)

Lemma executions_app (a b : list event) :
  executions (a ++ b) = (executions a ++ executions b)%list.
Proof.
  induction a as [|ev a IH]; [reflexivity|].
  destruct ev; cbn [executions app]; rewrite IH; reflexivity.
Qed.

Lemma executions_printed (lines : list string) :
  executions (map Printed lines) = [].
Proof. induction lines; [reflexivity|exact IHlines]. Qed.

Lemma requests_app (a b : list event) :
  requests (a ++ b) = (requests a ++ requests b)%list.
Proof.
  induction a as [|ev a IH]; [reflexivity|].
  destruct ev; cbn [requests app]; rewrite IH; reflexivity.
Qed.

Lemma requests_printed (lines : list string) :
  requests (map Printed lines) = [].
Proof. induction lines; [reflexivity|exact IHlines]. Qed.

(** *** [execute_tool] always returns a dict *)

Lemma execute_tool_returns (tool_name tool_input : json) (s : state) :
  exists lines d,
    execute_tool E tool_name tool_input s =
    (Ok (JDict d), log (Executing tool_name tool_input :: map Printed lines) s) /\
    tool_outcome E (requests_made s) tool_name tool_input = JDict d.
Proof.
  unfold tool_outcome, execute_tool, try_except, search_web, now. run.
  destruct (eq_str tool_name "search_web").
  - destruct (py_get tool_input "query" (JStr "")) as [q|e] eqn:Hq.
    + eexists [_], _. tidy. split; reflexivity.
    + pose proof (catchable_get tool_input "query" (JStr "")) as C.
      rewrite Hq in C. cbn [catchable] in C. rewrite C.
      eexists [_; _], _. tidy. split; reflexivity.
  - cbn [is_Exception]. eexists [_; _], _. tidy. split; reflexivity.
Qed.

(** *** The restoring loop cuts the conversation to the length of the copy *)

Lemma restore_loop_cuts (copy : list json) :
  forall fuel s,
    List.length (conversation s) <= fuel + List.length copy ->
    restore_loop fuel copy s =
    (Ok tt, mkState (firstn (List.length copy) (conversation s)) (trace s)
                    (requests_made s)).
Proof.
  induction fuel as [|fuel IH]; intros s Hlen; cbn [restore_loop]; run.
  - rewrite firstn_all2 by exact Hlen. destruct s; reflexivity.
  - destruct (Nat.ltb_spec (List.length copy) (List.length (conversation s)))
      as [Hlt|Hge].
    + unfold pop. destruct (conversation s) as [|m conv] eqn:Hc.
      { cbn in Hlt. lia. }
      rewrite IH; cbn [conversation trace requests_made].
      * rewrite removelast_firstn_len, firstn_firstn.
        rewrite Nat.min_l by (cbn [List.length] in *; lia). reflexivity.
      * rewrite removelast_firstn_len, length_firstn.
        cbn [List.length] in *. lia.
    + rewrite firstn_all2 by exact Hge. destruct s; reflexivity.
Qed.

Lemma restore_cuts (copy : list json) (s : state) :
  restore copy s =
  (Ok tt, mkState (firstn (List.length copy) (conversation s)) (trace s)
                  (requests_made s)).
Proof. unfold restore. run. apply restore_loop_cuts. lia. Qed.

(** The loop stops because its condition fails, not for want of fuel. *)
Lemma restore_exits (copy : list json) (s : state) :
  exists s', restore copy s = (Ok tt, s') /\
             (List.length copy <? List.length (conversation s'))%nat = false.
Proof.
  eexists. split; [apply restore_cuts|].
  cbn [conversation]. apply Nat.ltb_ge. rewrite length_firstn. lia.
Qed.

Lemma restore_copy (copy added : list json) (s : state) :
  conversation s = (copy ++ added)%list ->
  restore copy s = (Ok tt, mkState copy (trace s) (requests_made s)).
Proof.
  intros H. rewrite restore_cuts, H, firstn_app, Nat.sub_diag, firstn_all.
  cbn [firstn]. now rewrite app_nil_r.
Qed.

(** *** [forward_tool_result]: one request, then a reply appended or the
    copy restored *)

Lemma lookup_existsb (key : string) (d : list (string * json)) :
  existsb (fun kv => fst kv =? key) d = true ->
  exists x, lookup key d = Some x.
Proof.
  induction d as [|[k x] d IH]; cbn [existsb lookup fst]; [discriminate|].
  destruct (k =? key); [eauto|exact IH].
Qed.

Lemma has_error_key_lookup (d : list (string * json)) :
  has_error_key (JDict d) = true <-> exists x, lookup "error" d = Some x.
Proof.
  cbn [has_error_key]. split; [apply lookup_existsb|].
  intros (x & Hx).
  induction d as [|[k y] d IH]; [discriminate|].
  cbn [lookup existsb fst] in *. destruct (k =? "error"); [reflexivity|].
  exact (IH Hx).
Qed.

Ltac send :=
  cbn [conversation trace requests_made];
  match goal with
  | |- context [send_message E ?k ?m ?b ?st] =>
      let Hs := fresh "Hs" in
      pose proof (send_message_sends k m b st) as Hs; cbv zeta in Hs;
      cbn [conversation trace requests_made] in Hs;
      rewrite Hs; clear Hs
  end.

Ltac display :=
  cbn [conversation trace requests_made];
  match goal with
  | |- context [display_response E ?v ?st] =>
      let r := fresh "shown" in
      let lines := fresh "lines" in
      let Hd := fresh "Hd" in
      let Cd := fresh "Cd" in
      let Bd := fresh "Bd" in
      destruct (display_response_prints v st) as (r & lines & Hd & Cd & Bd);
      rewrite Hd; clear Hd; unfold log; cbn [conversation trace requests_made]
  end.

Lemma forward_tool_result_runs (api_key v c tool_id : json)
      (d : list (string * json)) (s : state) :
  py_get v "content" (JList []) = Ok c ->
  let copy := conversation s in
  let sent := (copy ++ [assistant_message c;
                        tool_result_message E tool_id (JDict d)
                                            (has_error_key (JDict d))])%list in
  let payload := request_payload sent true in
  let o := requests_post E (requests_made s) API_URL (request_headers api_key)
                         payload in
  exists r s' before after,
    forward_tool_result E api_key v copy tool_id (JDict d) s = (r, s') /\
    trace s' = (trace s ++ map Printed before ++
                Posted API_URL (request_headers api_key) payload ::
                map Printed after)%list /\
    requests_made s' = S (requests_made s) /\
    forwarded copy sent (received o) r (conversation s').
Proof.
  intros Hc copy sent payload o.
  unfold forward_tool_result. cbn [py_in has_error_key] in *.
  unfold bind at 1, lift at 1. cbn beta iota.
  (* the line printed for a failed tool *)
  match goal with
  | |- context [bind ?m _ s] =>
      assert (Hp : exists lines, m s = (Ok tt, log (map Printed lines) s))
  end.
  { destruct (existsb (fun kv => fst kv =? "error") d) eqn:Herr.
    - destruct (lookup_existsb _ _ Herr) as (x & Hx).
      cbn [py_subscript]. rewrite Hx. run. eexists [_]. reflexivity.
    - exists []. rewrite log_nil. reflexivity. }
  destruct Hp as (told & Hp). rewrite (bind_ok _ _ _ _ _ Hp). clear Hp.
  run. rewrite Hc. unfold try_except. tidy.
  fold copy. fold sent.
  send. fold payload. fold o. unfold forwarded.
  destruct (received o) as [w|e].
  - destruct (truthy w) eqn:Hw.
    + pose proof (catchable_get w "content" (JList [])) as Cg.
      unfold is_reply, content_of.
      destruct (py_get w "content" (JList [])) as [c2|e] eqn:Hc2.
      * display. destruct shown as [[]|e].
        -- eexists _, _, (told ++ [_])%list, (diagnostic o ++ lines)%list.
           split; [reflexivity|]. tidy. rewrite !map_app.
           rewrite <- !app_assoc. cbn [app map]. repeat split.
           left. split; reflexivity.
        -- cbn [catchable] in Cd. rewrite Cd. tidy.
           rewrite (restore_copy copy [_; _; _])
             by (subst sent; cbn [conversation]; now rewrite <- app_assoc).
           eexists _, _, (told ++ [_])%list, (diagnostic o ++ lines ++ [_; _; _])%list.
           split; [reflexivity|].
           tidy. rewrite !map_app. rewrite <- !app_assoc. cbn [app map].
           repeat split. right. split; [|split; reflexivity].
           unfold is_reply in Bd. rewrite Hc2 in Bd.
           destruct c2; try reflexivity.
           destruct (forallb is_block l); [discriminate (Bd eq_refl)|reflexivity].
      * cbn [catchable] in Cg. rewrite Cg. tidy.
        rewrite (restore_copy copy [_; _]) by reflexivity.
        eexists _, _, (told ++ [_])%list, (diagnostic o ++ [_; _; _])%list.
        split; [reflexivity|].
        tidy. rewrite !map_app. rewrite <- !app_assoc. cbn [app map].
        repeat split. right. repeat split.
    + tidy. rewrite (restore_copy copy [_; _]) by reflexivity.
      eexists _, _, (told ++ [_])%list, (diagnostic o ++ [_; _; _])%list.
      split; [reflexivity|].
      tidy. rewrite !map_app. rewrite <- !app_assoc. cbn [app map].
      repeat split.
  - destruct (is_Exception e).
    + tidy. rewrite (restore_copy copy [_; _]) by reflexivity.
      eexists _, _, (told ++ [_])%list, (diagnostic o ++ [_; _; _])%list.
      split; [reflexivity|].
      tidy. rewrite !map_app. rewrite <- !app_assoc. cbn [app map].
      repeat split.
    + eexists _, _, (told ++ [_])%list, (diagnostic o). split; [reflexivity|].
      tidy. rewrite !map_app. rewrite <- !app_assoc. cbn [app map].
      repeat split.
Qed.

(** *** The search for the tool-invocation block *)

Lemma first_tool_use_cases (items : list json) (tool_use : json) :
  first_tool_use items = Ok tool_use ->
  (tool_use = JNull /\ filter (has_type "tool_use") items = []) \/
  (exists d before after,
      tool_use = JDict d /\ truthy tool_use = true /\
      items = (before ++ tool_use :: after)%list /\
      filter (has_type "tool_use") before = [] /\
      has_type "tool_use" tool_use = true).
Proof.
  induction items as [|b items IH]; cbn [first_tool_use filter].
  - intros H. injection H as <-. left. split; reflexivity.
  - unfold has_type at 1.
    destruct (py_get b "type" JNull) as [ty|e] eqn:Hty; [|discriminate].
    destruct (eq_str ty "tool_use") eqn:Heq.
    + intros H. injection H as <-. right.
      destruct b as [ | | | | |?|d]; try discriminate Hty.
      exists d, [], items. repeat split.
      * cbn [py_get] in Hty. destruct d; [|reflexivity].
        cbn in Hty. injection Hty as <-. discriminate Heq.
      * unfold has_type. rewrite Hty. exact Heq.
    + intros H. destruct (IH H) as [[-> Hf]|(d & pre & post & -> & Ht & -> & Hf & Hh)].
      * left. split; [reflexivity|exact Hf].
      * right. exists d, (b :: pre), post. repeat split; try assumption.
        cbn [filter]. unfold has_type at 1. rewrite Hty, Heq. exact Hf.
Qed.

Lemma first_tool_use_catchable (items : list json) :
  catchable (first_tool_use items).
Proof.
  induction items as [|b items IH]; cbn [first_tool_use]; [exact I|].
  pose proof (catchable_get b "type" JNull) as C.
  destruct (py_get b "type" JNull) as [ty|e]; [|exact C].
  destruct (eq_str ty "tool_use"); [exact I|exact IH].
Qed.

Lemma first_tool_use_of_catchable (v : json) : catchable (first_tool_use_of v).
Proof.
  unfold first_tool_use_of.
  pose proof (catchable_get v "content" (JList [])) as C.
  destruct (py_get v "content" (JList [])) as [c|e]; [|exact C].
  pose proof (catchable_iter c) as Ci.
  destruct (py_iter c) as [items|e]; [|exact Ci].
  apply first_tool_use_catchable.
Qed.

(** *** [process_tool_use_response] *)

Lemma process_tool_use_response_runs (api_key v : json) (s : state) :
  exists r s',
    process_tool_use_response E api_key v s = (r, s') /\
    match first_tool_use_of v with
    | Raise e => r = Raise e /\ s' = s
    | Ok tool_use =>
        if truthy tool_use then
          let tool_name := name_of tool_use in
          let tool_input := input_of tool_use in
          let tool_result :=
            tool_outcome E (requests_made s) tool_name tool_input in
          let sent :=
            (conversation s ++
             [assistant_message (content_of v);
              tool_result_message E (id_of tool_use) tool_result
                                  (has_error_key tool_result)])%list in
          let payload := request_payload sent true in
          let o := requests_post E (requests_made s) API_URL
                                 (request_headers api_key) payload in
          exists before between after,
            trace s' =
            (trace s ++ map Printed before ++
             Executing tool_name tool_input :: map Printed between ++
             Posted API_URL (request_headers api_key) payload ::
             map Printed after)%list /\
            requests_made s' = S (requests_made s) /\
            forwarded (conversation s) sent (received o) r (conversation s')
        else
          r = Ok JNull /\
          s' = mkState (conversation s ++ [assistant_message (content_of v)])
                       (trace s ++ [Printed anomaly_line])
                       (requests_made s)
    end.
Proof.
  unfold process_tool_use_response, first_tool_use_of, content_of.
  destruct (py_get v "content" (JList [])) as [c|e] eqn:Hc; run.
  2:{ eexists _, _. split; [reflexivity|]. split; reflexivity. }
  destruct (py_iter c) as [items|e].
  2:{ eexists _, _. split; [reflexivity|]. split; reflexivity. }
  destruct (first_tool_use items) as [tool_use|e] eqn:Hf.
  2:{ eexists _, _. split; [reflexivity|]. split; reflexivity. }
  destruct (first_tool_use_cases _ _ Hf)
    as [[-> _]|(d & pre & post & -> & Ht & _ & _ & _)].
  - cbn [truthy negb]. eexists _, _. split; [reflexivity|].
    split; reflexivity.
  - rewrite Ht. cbn [negb py_get name_of input_of id_of].
    set (tool_name := match lookup "name" d with Some x => x | None => JNull end).
    set (tool_input :=
           match lookup "input" d with Some x => x | None => JDict [] end).
    set (tool_id := match lookup "id" d with Some x => x | None => JNull end).
    tidy.
    match goal with
    | |- context [execute_tool E tool_name tool_input ?st] =>
        destruct (execute_tool_returns tool_name tool_input st)
          as (lines & d' & Hx & Ho)
    end.
    rewrite Hx. cbn [requests_made] in Ho. rewrite Ho. tidy.
    match goal with
    | |- context [forward_tool_result E api_key v _ tool_id (JDict d') ?st] =>
        destruct (forward_tool_result_runs api_key v c tool_id d' st Hc)
          as (r & s' & before & after & Hfw & Htr & Hn & Hpost)
    end.
    cbn [conversation trace requests_made] in Hfw, Htr, Hn, Hpost.
    rewrite Hfw. exists r, s'. split; [reflexivity|].
    eexists [_; _], (lines ++ before)%list, after.
    split; [|split; [exact Hn|exact Hpost]].
    rewrite Htr. cbn [map]. rewrite map_app. rewrite <- !app_assoc.
    cbn [app]. reflexivity.
Qed.

(** *** Transport failures *)

Lemma raise_for_status_ok (url : string) (r : response) :
  ~ (400 <= status_code r < 600)%Z -> raise_for_status url r = Ok tt.
Proof.
  intros H. unfold raise_for_status.
  destruct (Z.leb_spec 400 (status_code r));
    destruct (Z.ltb_spec (status_code r) 500); cbn [andb]; try lia;
    destruct (Z.leb_spec 500 (status_code r));
    destruct (Z.ltb_spec (status_code r) 600); cbn [andb]; try lia;
    reflexivity.
Qed.

Lemma transport_failure_raises (o : post_result) :
  transport_failure o ->
  exists e, attempt o = Raise e /\ is_RequestException e = true.
Proof.
  intros [e He|r Hr|r e Hr Hb He]; unfold attempt.
  - exists e. split; [reflexivity|exact He].
  - unfold raise_for_status.
    destruct (Z.leb_spec 400 (status_code r)); [|lia].
    destruct (Z.ltb_spec (status_code r) 500); cbn [andb].
    + eexists. split; reflexivity.
    + destruct (Z.leb_spec 500 (status_code r)); [|lia].
      destruct (Z.ltb_spec (status_code r) 600); [|lia].
      cbn [andb]. eexists. split; reflexivity.
  - unfold raise_for_status.
    destruct (Z.leb_spec 400 (status_code r));
      destruct (Z.ltb_spec (status_code r) 500); cbn [andb]; try lia;
      destruct (Z.leb_spec 500 (status_code r));
      destruct (Z.ltb_spec (status_code r) 600); cbn [andb]; try lia;
      unfold response_json; rewrite Hb; exists e; (split;
        [reflexivity|exact He]).
Qed.

Lemma transport_failure_received (o : post_result) :
  transport_failure o -> received o = Ok JNull.
Proof.
  intros H. destruct (transport_failure_raises o H) as (e & Ha & He).
  unfold received. now rewrite Ha, He.
Qed.


Lemma received_reply (o : post_result) (v : json) :
  attempt o = Ok v -> received o = Ok v /\ diagnostic o = [].
Proof. intros H. unfold received, diagnostic. now rewrite H. Qed.

Lemma received_truthy (o : post_result) (v : json) :
  received o = Ok v -> truthy v = true -> attempt o = Ok v.
Proof.
  unfold received. destruct (attempt o) as [w|e]; [trivial|].
  destruct (is_RequestException e); [|discriminate].
  intros H. injection H as <-. discriminate.
Qed.

(** *** Replies *)

Lemma stops_for_tool_truthy (v : json) :
  stops_for_tool v = true ->
  truthy v = true /\
  exists r, py_get v "stop_reason" JNull = Ok r /\ eq_str r "tool_use" = true.
Proof.
  unfold stops_for_tool.
  destruct (py_get v "stop_reason" JNull) as [r|e] eqn:Hr; [|discriminate].
  intros H. split; [|eauto].
  destruct v as [ | | | | | |d]; try discriminate Hr.
  destruct d; [|reflexivity]. cbn in Hr. injection Hr as <-. discriminate H.
Qed.

Lemma has_type_dict (ty : string) (b : json) :
  has_type ty b = true -> truthy b = true /\ exists d, b = JDict d.
Proof.
  unfold has_type. destruct (py_get b "type" JNull) as [t|e] eqn:Ht;
    [|discriminate].
  intros H. destruct b as [ | | | | | |d]; try discriminate Ht.
  split; [|eauto]. destruct d; [|reflexivity].
  cbn in Ht. injection Ht as <-. discriminate H.
Qed.

Lemma first_tool_use_blocks (l : list json) :
  forallb is_block l = true ->
  first_tool_use l = Ok (hd JNull (filter (has_type "tool_use") l)).
Proof.
  induction l as [|b l IH]; [reflexivity|].
  cbn [forallb first_tool_use filter]. intros H.
  apply andb_prop in H. destruct H as [Hb Hl].
  unfold has_type at 1.
  destruct b as [ | | | | | |d]; try discriminate Hb. cbn [py_get].
  destruct (eq_str _ "tool_use"); [reflexivity|exact (IH Hl)].
Qed.

Lemma reply_content (v : json) :
  is_reply v = true ->
  exists l, py_get v "content" (JList []) = Ok (JList l) /\
            forallb is_block l = true /\
            content_of v = JList l /\ blocks_of v = l.
Proof.
  unfold is_reply, blocks_of, content_of.
  destruct (py_get v "content" (JList [])) as [c|e]; [|discriminate].
  destruct c; try discriminate. intros H. eauto.
Qed.

Lemma first_tool_use_of_reply (v : json) :
  is_reply v = true ->
  first_tool_use_of v = Ok (hd JNull (tool_use_blocks v)).
Proof.
  intros H. destruct (reply_content v H) as (l & Hc & Hb & _ & Hl).
  unfold first_tool_use_of, tool_use_blocks. rewrite Hc, Hl.
  cbn [py_iter]. now apply first_tool_use_blocks.
Qed.

Lemma first_block_truthy (v b : json) (others : list json) :
  tool_use_blocks v = b :: others -> truthy b = true.
Proof.
  unfold tool_use_blocks. intros H.
  assert (Hin : In b (filter (has_type "tool_use") (blocks_of v)))
    by (rewrite H; now left).
  apply filter_In in Hin. now apply has_type_dict with (ty := "tool_use").
Qed.

(** *** One user input *)

(** A cycle whose first request is answered by a reply: the reply is shown,
    then handed to [process_tool_use_response] or appended. *)
Lemma cycle_on_reply (api_key : json) (user_input : string) (s : state)
      (v : json) :
  let asked := (conversation s ++ [user_message user_input])%list in
  let payload := request_payload asked true in
  let o := requests_post E (requests_made s) API_URL (request_headers api_key)
                         payload in
  attempt o = Ok v -> truthy v = true -> is_reply v = true ->
  exists shown,
    let s1 := mkState asked
                      (trace s ++ Printed thinking_line ::
                       Posted API_URL (request_headers api_key) payload ::
                       map Printed shown)
                      (S (requests_made s)) in
    cycle E api_key user_input s =
    if stops_for_tool v then
      let (r1, s2) := process_tool_use_response E api_key v s1 in
      match r1 with
      | Ok _ => (Ok tt, log [Printed ""] s2)
      | Raise e =>
          if is_Exception e
          then (Ok tt, log [Printed (error_line e); Printed reset_hint_line] s2)
          else (Raise e, s2)
      end
    else
      (Ok tt, log [Printed ""]
                  (mkState (asked ++ [assistant_message (content_of v)])
                           (trace s1) (requests_made s1))).
Proof.
  intros asked payload o Ha Hv Hr.
  destruct (received_reply o v Ha) as (Hrec & Hdiag).
  destruct (reply_content v Hr) as (l & Hc & _ & Hco & _).
  unfold cycle, try_except. run. send. fold asked. fold payload. fold o.
  rewrite Hrec, Hdiag, Hv. cbn [negb map]. unfold stops_for_tool.
  destruct v as [ | | | | | |d]; try discriminate Hc. cbn [py_get].
  set (v := JDict d) in *.
  destruct (eq_str _ "tool_use").
  - display. rewrite (Bd Hr). exists lines. cbn zeta. tidy.
    unfold thinking_line.
    set (s1 := mkState asked _ _).
    destruct (process_tool_use_response E api_key v s1) as [[w|e] s2].
    + reflexivity.
    + destruct (is_Exception e); tidy; reflexivity.
  - display. rewrite (Bd Hr). exists lines. cbn zeta.
    unfold content_of, v. cbn [py_get]. tidy. reflexivity.
Qed.

(** A cycle whose first request brings a value that is falsy *)
Lemma cycle_on_nothing (api_key : json) (user_input : string) (s : state)
      (v : json) :
  let asked := (conversation s ++ [user_message user_input])%list in
  let payload := request_payload asked true in
  let o := requests_post E (requests_made s) API_URL (request_headers api_key)
                         payload in
  received o = Ok v -> truthy v = false ->
  cycle E api_key user_input s =
  (Ok tt,
   mkState asked
           (trace s ++
            Printed thinking_line ::
            Posted API_URL (request_headers api_key) payload ::
            map Printed (diagnostic o ++ [no_response_line; reset_hint_line]))
           (S (requests_made s))).
Proof.
  intros asked payload o Hrec Hv.
  unfold cycle, try_except. run. send. fold asked. fold payload. fold o.
  rewrite Hrec, Hv. cbn [negb]. tidy. rewrite map_app. reflexivity.
Qed.

Ltac observe :=
  repeat (rewrite ?executions_app, ?executions_printed, ?requests_app,
            ?requests_printed; cbn [executions requests app]);
  rewrite ?app_nil_r.

(** A cycle whose first reply asks for a tool: the tool runs, its result is
    sent, and what comes of that request decides the conversation. *)
Lemma cycle_with_tool (api_key : json) (user_input : string) (s : state)
      (v tool_use : json) (others : list json) :
  let asked := (conversation s ++ [user_message user_input])%list in
  let payload := request_payload asked true in
  let o := requests_post E (requests_made s) API_URL (request_headers api_key)
                         payload in
  attempt o = Ok v -> is_reply v = true -> stops_for_tool v = true ->
  tool_use_blocks v = tool_use :: others ->
  let tool_name := name_of tool_use in
  let tool_input := input_of tool_use in
  let tool_result :=
    tool_outcome E (S (requests_made s)) tool_name tool_input in
  let sent :=
    (asked ++ [assistant_message (content_of v);
               tool_result_message E (id_of tool_use) tool_result
                                   (has_error_key tool_result)])%list in
  let payload2 := request_payload sent true in
  let o2 := requests_post E (S (requests_made s)) API_URL
                          (request_headers api_key) payload2 in
  exists r r' s' shown between after,
    cycle E api_key user_input s = (r, s') /\
    trace s' =
    (trace s ++ Printed thinking_line ::
     Posted API_URL (request_headers api_key) payload ::
     map Printed shown ++
     Executing tool_name tool_input :: map Printed between ++
     Posted API_URL (request_headers api_key) payload2 ::
     map Printed after)%list /\
    requests_made s' = S (S (requests_made s)) /\
    forwarded asked sent (received o2) r' (conversation s') /\
    r = match r' with Ok _ => Ok tt | Raise e => Raise e end.
Proof.
  intros asked payload o Ha Hr Hs Hb tool_name tool_input tool_result sent
         payload2 o2.
  destruct (stops_for_tool_truthy v Hs) as (Hv & _).
  destruct (cycle_on_reply api_key user_input s v Ha Hv Hr) as (shown & Hcy).
  cbv zeta in Hcy. fold asked payload in Hcy. rewrite Hs in Hcy.
  match type of Hcy with
  | context [process_tool_use_response E api_key v ?s1] =>
      destruct (process_tool_use_response_runs api_key v s1)
        as (r1 & s2 & Hp & Hcase)
  end.
  rewrite Hp in Hcy. clear Hp.
  rewrite (first_tool_use_of_reply v Hr), Hb in Hcase. cbn [hd] in Hcase.
  rewrite (first_block_truthy v tool_use others Hb) in Hcase.
  cbv zeta in Hcase. cbn [conversation trace requests_made] in Hcase.
  fold tool_name tool_input tool_result sent payload2 o2 in Hcase.
  destruct Hcase as (before & between & after & Htr & Hn & Hfw).
  assert (Hraise : forall e, r1 = Raise e -> is_Exception e = false).
  { intros e ->. unfold forwarded in Hfw. destruct (received o2) as [w|e'].
    - destruct (truthy w); [destruct Hfw as [[H _]|(_ & H & _)]|
                            destruct Hfw as [H _]]; discriminate H.
    - destruct (is_Exception e') eqn:He'; destruct Hfw as [H _];
        [discriminate H|]. injection H as ->. exact He'. }
  destruct r1 as [w|e].
  - eexists (Ok tt), (Ok w), _, (shown ++ before)%list, between,
      (after ++ [_])%list.
    split; [exact Hcy|]. tidy. rewrite Htr. rewrite !map_app.
    rewrite <- !app_assoc. cbn [app map]. rewrite <- !app_assoc.
    cbn [app]. repeat split; assumption.
  - rewrite (Hraise e eq_refl) in Hcy.
    eexists (Raise e), (Raise e), _, (shown ++ before)%list, between, after.
    split; [exact Hcy|]. rewrite Htr. rewrite !map_app.
    rewrite <- !app_assoc. cbn [app map]. repeat split; assumption.
Qed.

(** A cycle whose first reply stops for a tool and holds no tool-invocation
    block *)
Lemma cycle_on_anomaly (api_key : json) (user_input : string)
        (s : state) (v : json) :
  let asked := (conversation s ++ [user_message user_input])%list in
  let payload := request_payload asked true in
  let o := requests_post E (requests_made s) API_URL (request_headers api_key)
                         payload in
  attempt o = Ok v -> is_reply v = true -> stops_for_tool v = true ->
  tool_use_blocks v = [] ->
  exists shown,
    cycle E api_key user_input s =
    (Ok tt,
     mkState (asked ++ [assistant_message (content_of v)])
             (trace s ++ Printed thinking_line ::
              Posted API_URL (request_headers api_key) payload ::
              map Printed (shown ++ [anomaly_line; ""]))
             (S (requests_made s))).
Proof.
  intros asked payload o Ha Hr Hs Hb.
  destruct (stops_for_tool_truthy v Hs) as (Hv & _).
  destruct (cycle_on_reply api_key user_input s v Ha Hv Hr) as (shown & Hcy).
  cbv zeta in Hcy. fold asked payload in Hcy. rewrite Hs in Hcy.
  match type of Hcy with
  | context [process_tool_use_response E api_key v ?s1] =>
      destruct (process_tool_use_response_runs api_key v s1)
        as (r1 & s2 & Hp & Hcase)
  end.
  rewrite Hp in Hcy. clear Hp.
  rewrite (first_tool_use_of_reply v Hr), Hb in Hcase.
  cbn [hd truthy conversation trace requests_made] in Hcase.
  destruct Hcase as (-> & ->). exists shown. rewrite Hcy. tidy.
  rewrite map_app. rewrite <- ?app_assoc. reflexivity.
Qed.

(** *** What a cycle can leave in the conversation

    Whatever the service sends, a cycle that is not interrupted leaves the
    conversation in one of three shapes: the user's turn alone; the user's
    turn and a reply for which no tool was run; the user's turn, the reply
    that asked for a tool, the tool's result and the reply to it. *)
Lemma cycle_conversation (api_key : json) (user_input : string) (s : state) :
  let asked := (conversation s ++ [user_message user_input])%list in
  let payload := request_payload asked true in
  let o := requests_post E (requests_made s) API_URL (request_headers api_key)
                         payload in
  let r := fst (cycle E api_key user_input s) in
  let s' := snd (cycle E api_key user_input s) in
  catchable r ->
  r = Ok tt /\
  (conversation s' = asked \/
   (exists v,
       attempt o = Ok v /\
       (stops_for_tool v = false \/ first_tool_use_of v = Ok JNull) /\
       conversation s' = (asked ++ [assistant_message (content_of v)])%list) \/
   (exists v tool_use w,
       attempt o = Ok v /\ stops_for_tool v = true /\
       first_tool_use_of v = Ok tool_use /\ truthy tool_use = true /\
       let tool_result :=
         tool_outcome E (S (requests_made s)) (name_of tool_use)
                      (input_of tool_use) in
       let sent :=
         (asked ++ [assistant_message (content_of v);
                    tool_result_message E (id_of tool_use) tool_result
                                        (has_error_key tool_result)])%list in
       attempt (requests_post E (S (requests_made s)) API_URL
                              (request_headers api_key)
                              (request_payload sent true)) = Ok w /\
       conversation s' = (sent ++ [assistant_message (content_of w)])%list)).
Proof.
  intros asked payload o r s'. subst r s'.
  unfold cycle, try_except. run. send. fold asked. fold payload. fold o.
  destruct (received o) as [v|e] eqn:Hrec.
  2:{ destruct (is_Exception e) eqn:He; cbn [fst snd catchable].
      - intros _. split; [reflexivity|]. now left.
      - congruence. }
  destruct (truthy v) eqn:Hv; cbn [negb].
  2:{ intros _. split; [reflexivity|]. now left. }
  pose proof (received_truthy o v Hrec Hv) as Ha.
  pose proof (catchable_get v "stop_reason" JNull) as Cs.
  unfold stops_for_tool.
  destruct (py_get v "stop_reason" JNull) as [reason|e] eqn:Hreason.
  2:{ cbn [catchable] in Cs. rewrite Cs. intros _.
      split; [reflexivity|]. now left. }
  assert (Hcontent : py_get v "content" (JList []) = Ok (content_of v)).
  { unfold content_of. destruct v; try discriminate Hreason. reflexivity. }
  destruct (eq_str reason "tool_use") eqn:Htool.
  - (* the reply stops for a tool *)
    display. destruct shown as [[]|e].
    2:{ cbn [catchable] in Cd. rewrite Cd. intros _.
        split; [reflexivity|]. now left. }
    match goal with
    | |- context [process_tool_use_response E api_key v ?s1] =>
        destruct (process_tool_use_response_runs api_key v s1)
          as (r1 & s2 & Hp & Hcase)
    end.
    rewrite Hp. clear Hp.
    pose proof (first_tool_use_of_catchable v) as Cf.
    destruct (first_tool_use_of v) as [tool_use|e] eqn:Hf.
    2:{ destruct Hcase as (-> & ->). cbn [catchable] in Cf. rewrite Cf.
        intros _. split; [reflexivity|]. now left. }
    destruct (truthy tool_use) eqn:Ht.
    + cbv zeta in Hcase. cbn [conversation trace requests_made] in Hcase.
      destruct Hcase as (_ & _ & _ & _ & _ & Hfw). unfold forwarded in Hfw.
      match type of Hfw with
      | context [received ?o2] => destruct (received o2) as [w|e] eqn:Hrec2
      end.
      * destruct (truthy w) eqn:Hw.
        -- destruct Hfw as [(-> & Hconv)|(_ & -> & Hconv)].
           ++ intros _. split; [reflexivity|]. right. right.
              exists v, tool_use, w. cbn [fst snd conversation].
              split; [exact Ha|]. split; [now rewrite Hreason|].
              split; [exact Hf|]. split; [exact Ht|]. cbv zeta.
              split; [apply received_truthy; assumption|exact Hconv].
           ++ intros _. split; [reflexivity|]. now left.
        -- destruct Hfw as (-> & Hconv). intros _.
           split; [reflexivity|]. now left.
      * destruct (is_Exception e) eqn:He.
        -- destruct Hfw as (-> & Hconv). intros _.
           split; [reflexivity|]. now left.
        -- destruct Hfw as (-> & _). rewrite He. cbn [fst catchable].
           congruence.
    + destruct Hcase as (-> & ->). intros _. split; [reflexivity|].
      right. left. exists v. cbn [fst snd conversation].
      split; [exact Ha|]. split; [|reflexivity]. right.
      unfold first_tool_use_of in Hf |- *.
      destruct (py_get v "content" (JList [])) as [c|]; [|discriminate].
      destruct (py_iter c) as [items|]; [|discriminate].
      destruct (first_tool_use_cases items tool_use Hf)
        as [[-> _]|(d & _ & _ & _ & Ht' & _)]; [exact Hf|congruence].
  - (* any other stop reason *)
    display. destruct shown as [[]|e].
    2:{ cbn [catchable] in Cd. rewrite Cd. intros _.
        split; [reflexivity|]. now left. }
    rewrite Hcontent. intros _. split; [reflexivity|]. right. left.
    exists v. cbn [fst snd conversation].
    split; [exact Ha|]. split; [left; now rewrite Hreason|reflexivity].
Qed.

(** *** No orphan tool turns *)

Lemma user_message_invokes_nothing (user_input : string) (id : json) :
  ~ invokes (user_message user_input) id.
Proof.
  intros (d & blocks & b & Hm & Hrole & _). injection Hm as <-.
  discriminate Hrole.
Qed.

Lemma tool_result_invokes_nothing (tool_id tool_result : json)
      (is_error : bool) (id : json) :
  ~ invokes (tool_result_message E tool_id tool_result is_error) id.
Proof.
  intros (d & blocks & b & Hm & Hrole & _). injection Hm as <-.
  discriminate Hrole.
Qed.

Lemma assistant_message_invokes (c id : json) :
  invokes (assistant_message c) id ->
  exists blocks b,
    c = JList blocks /\ In b blocks /\ has_type "tool_use" b = true /\
    id_of b = id.
Proof.
  intros (d & blocks & b & Hm & _ & Hc & Hin & Hty & Hid).
  injection Hm as <-. cbn in Hc. injection Hc as ->.
  exists blocks, b. repeat split; assumption.
Qed.

Lemma tool_result_answers (tool_id tool_result : json) (is_error : bool) :
  answers (tool_result_message E tool_id tool_result is_error) tool_id.
Proof. unfold answers, tool_result_message. eexists _, _. repeat split. Qed.

Lemma no_orphans_app (a b : list json) :
  no_orphans a -> no_orphans b -> no_orphans (a ++ b).
Proof.
  induction a as [|m a IH]; [trivial|].
  cbn [no_orphans app]. intros (Hm & Ha) Hb. split; [|now apply IH].
  intros id Hid. specialize (Hm id Hid).
  destruct a; [contradiction|exact Hm].
Qed.

(** A reply without tool-invocation blocks makes a turn that invokes
    nothing. *)
Lemma quiet_reply_invokes_nothing (v id : json) :
  tool_use_blocks v = [] -> ~ invokes (assistant_message (content_of v)) id.
Proof.
  intros Hnone Hinv.
  destruct (assistant_message_invokes _ _ Hinv) as (blocks & b & Hc & Hin & Hty & _).
  assert (Hb : In b (tool_use_blocks v)).
  { unfold tool_use_blocks, blocks_of. rewrite Hc. apply filter_In. now split. }
  rewrite Hnone in Hb. contradiction.
Qed.

Lemma no_first_tool_use_no_blocks (v : json) :
  first_tool_use_of v = Ok JNull -> tool_use_blocks v = [].
Proof.
  unfold first_tool_use_of, tool_use_blocks, blocks_of, content_of.
  destruct (py_get v "content" (JList [])) as [c|]; [|discriminate].
  destruct c; try reflexivity. cbn [py_iter]. intros Hf.
  destruct (first_tool_use_cases _ _ Hf) as [[_ H]|(d & _ & _ & H & _)];
    [exact H|discriminate H].
Qed.

Lemma first_tool_use_in_blocks (v tool_use : json) (blocks : list json) :
  first_tool_use_of v = Ok tool_use -> truthy tool_use = true ->
  content_of v = JList blocks -> In tool_use (tool_use_blocks v).
Proof.
  unfold first_tool_use_of, tool_use_blocks, blocks_of, content_of.
  destruct (py_get v "content" (JList [])) as [c|]; [|discriminate].
  intros Hf Ht ->. cbn [py_iter] in Hf.
  destruct (first_tool_use_cases _ _ Hf)
    as [[-> _]|(d & pre & post & _ & _ & -> & _ & Hty)]; [discriminate Ht|].
  apply filter_In. split; [|exact Hty]. apply in_or_app. right. now left.
Qed.

Lemma follow_up_payload (messages : list json) (tool_id tool_result : json)
      (is_error : bool) :
  is_follow_up
    (request_payload
       (messages ++ [tool_result_message E tool_id tool_result is_error])
       true) = true.
Proof.
  unfold is_follow_up, request_payload. cbn [py_get lookup app String.eqb].
  cbn. rewrite last_last. reflexivity.
Qed.

Lemma cycle_keeps_no_orphans (api_key : json) (user_input : string)
      (s : state) :
  restrained E ->
  no_orphans (conversation s) ->
  catchable (fst (cycle E api_key user_input s)) ->
  fst (cycle E api_key user_input s) = Ok tt /\
  no_orphans (conversation (snd (cycle E api_key user_input s))).
Proof.
  intros HE Hinv Hc.
  destruct (cycle_conversation api_key user_input s Hc) as (Hr & Hshape).
  split; [exact Hr|].
  assert (Huser : no_orphans [user_message user_input]).
  { split; [|exact I]. intros id Hid.
    destruct (user_message_invokes_nothing _ _ Hid). }
  destruct Hshape as [->|[(v & Ha & Hwhy & ->)|
                          (v & tool_use & w & Ha & Hs & Hf & Ht & Hrest)]].
  - now apply no_orphans_app.
  - (* a reply for which no tool was run holds no tool-invocation block *)
    assert (Hnone : tool_use_blocks v = []).
    { destruct Hwhy as [Hs|Hf]; [|now apply no_first_tool_use_no_blocks].
      specialize (HE _ _ _ _ _ Ha). unfold restrained_reply in HE.
      destruct (tool_use_blocks v) as [|b [|b' bs]];
        [reflexivity| |discriminate HE].
      rewrite Hs in HE. discriminate HE. }
    rewrite <- app_assoc. apply no_orphans_app; [exact Hinv|].
    cbn [app no_orphans]. repeat split.
    + intros id Hid. destruct (user_message_invokes_nothing _ _ Hid).
    + intros id Hid. destruct (quiet_reply_invokes_nothing v id Hnone Hid).
  - (* the reply that asked holds one block, the reply to the result none *)
    cbv zeta in Hrest. destruct Hrest as (Ha2 & ->).
    pose proof (HE _ _ _ _ _ Ha) as Hv.
    pose proof (HE _ _ _ _ _ Ha2) as Hw.
    unfold restrained_reply in Hv, Hw.
    change [assistant_message (content_of v);
            tool_result_message E (id_of tool_use)
              (tool_outcome E (S (requests_made s)) (name_of tool_use)
                            (input_of tool_use))
              (has_error_key
                 (tool_outcome E (S (requests_made s)) (name_of tool_use)
                               (input_of tool_use)))]
      with ([assistant_message (content_of v)] ++
            [tool_result_message E (id_of tool_use)
              (tool_outcome E (S (requests_made s)) (name_of tool_use)
                            (input_of tool_use))
              (has_error_key
                 (tool_outcome E (S (requests_made s)) (name_of tool_use)
                               (input_of tool_use)))])%list in Hw.
    rewrite app_assoc, follow_up_payload in Hw. cbn [negb] in Hw.
    rewrite andb_false_r in Hw.
    assert (Hnone : tool_use_blocks w = []).
    { destruct (tool_use_blocks w) as [|b [|b' bs]];
        [reflexivity|discriminate Hw|discriminate Hw]. }
    rewrite <- !app_assoc. apply no_orphans_app; [exact Hinv|].
    cbn [app no_orphans]. repeat split.
    + intros id Hid. destruct (user_message_invokes_nothing _ _ Hid).
    + intros id Hid.
      destruct (assistant_message_invokes _ _ Hid)
        as (blocks & b & Hcv & Hin & Hty & <-).
      assert (Hb : In b (tool_use_blocks v)).
      { unfold tool_use_blocks, blocks_of. rewrite Hcv.
        apply filter_In. now split. }
      pose proof (first_tool_use_in_blocks v tool_use blocks Hf Ht Hcv) as Htu.
      destruct (tool_use_blocks v) as [|x [|x' xs]];
        [contradiction| |discriminate Hv].
      destruct Hb as [<-|[]]. destruct Htu as [<-|[]].
      apply tool_result_answers.
    + intros id Hid. destruct (tool_result_invokes_nothing _ _ _ _ Hid).
    + intros id Hid. destruct (quiet_reply_invokes_nothing w id Hnone Hid).
Qed.

Lemma main_loop_keeps_no_orphans (api_key : json) (lines : list string) :
  restrained E ->
  forall s,
    no_orphans (conversation s) ->
    catchable (fst (main_loop E api_key lines s)) ->
    no_orphans (conversation (snd (main_loop E api_key lines s))).
Proof.
  intros HE. induction lines as [|line lines IH]; intros s Hinv.
  - intros _. exact Hinv.
  - cbn [main_loop]. unfold input. run.
    destruct (existsb (String.eqb (lower line)) ["exit"; "quit"; "q"]).
    { intros _. exact Hinv. }
    destruct (lower line =? "reset").
    { apply IH. exact I. }
    set (s0 := mkState _ _ _).
    pose proof (cycle_keeps_no_orphans api_key line s0 HE Hinv) as Hcy.
    destruct (cycle E api_key line s0) as [[[]|e] s1]; cbn [fst snd] in *.
    + apply IH. now apply Hcy.
    + intros C. destruct (Hcy C) as [H _]. discriminate H.
Qed.

(** ** The claims *)

(** C1: when the reply to the user's turn asks for a tool, the tool has run
    and the request that carries its result fails, the cycle ends with the
    conversation it started from plus the user's turn, and nothing else: the
    assistant's turn and the tool-result turn, which the failed request
    carried, are gone. *)
Theorem rollback_leaves_user_turn (api_key : json) (user_input : string)
        (s : state) (v tool_use : json) (others : list json) :
  let asked := (conversation s ++ [user_message user_input])%list in
  let payload := request_payload asked true in
  let o := requests_post E (requests_made s) API_URL (request_headers api_key)
                         payload in
  attempt o = Ok v -> is_reply v = true -> stops_for_tool v = true ->
  tool_use_blocks v = tool_use :: others ->
  let tool_name := name_of tool_use in
  let tool_input := input_of tool_use in
  let tool_result :=
    tool_outcome E (S (requests_made s)) tool_name tool_input in
  let sent :=
    (asked ++ [assistant_message (content_of v);
               tool_result_message E (id_of tool_use) tool_result
                                   (has_error_key tool_result)])%list in
  let payload2 := request_payload sent true in
  let o2 := requests_post E (S (requests_made s)) API_URL
                          (request_headers api_key) payload2 in
  transport_failure o2 ->
  exists s',
    cycle E api_key user_input s = (Ok tt, s') /\
    conversation s' = asked /\
    executions (trace s') =
    (executions (trace s) ++ [(tool_name, tool_input)])%list /\
    requests (trace s') = (requests (trace s) ++ [payload; payload2])%list.
Proof.
  intros asked payload o Ha Hr Hs Hb tool_name tool_input tool_result sent
         payload2 o2 Hfail.
  destruct (cycle_with_tool api_key user_input s v tool_use others Ha Hr Hs Hb)
    as (r & r' & s' & shown & between & after & Hcy & Htr & _ & Hfw & Hres).
  fold asked payload tool_name tool_input tool_result sent payload2 o2
    in Htr, Hfw.
  unfold forwarded in Hfw. rewrite (transport_failure_received o2 Hfail) in Hfw.
  cbn [truthy] in Hfw. destruct Hfw as (-> & Hconv). subst r.
  exists s'. split; [exact Hcy|]. split; [exact Hconv|].
  rewrite Htr. observe. split; reflexivity.
Qed.

(** C2, as the script has it: when the service is restrained (it puts a
    tool-invocation block only in a reply that stops for a tool, one block
    at most, and none in its reply to a tool's result), every run of [main]
    that ends at the prompt, after whatever lines, leaves a conversation
    without orphan tool turns. *)
Theorem no_orphans_at_prompt (api_key : json) (lines : list string)
        (s : state) :
  restrained E ->
  catchable (fst (main E api_key lines s)) ->
  no_orphans (conversation (snd (main E api_key lines s))).
Proof.
  intros HE. unfold main. run.
  destruct (truthy api_key); cbn [negb].
  - apply main_loop_keeps_no_orphans; [exact HE|exact I].
  - intros C. discriminate C.
Qed.

(** C3: whenever the reply to the user's turn asks for a tool, and whatever
    the tool returns, the request that follows is sent, and it carries the
    conversation with the assistant's turn and one tool-result turn more.
    The one block of that turn has, as [tool_use_id], the id of the
    invocation as the service gave it and, as [is_error], whether the
    tool's result holds the key ['error']; its content is the result as
    [json.dumps] writes it.  Both turns are still there when the reply to
    that request is appended. *)
Theorem tool_result_is_forwarded (api_key : json) (user_input : string)
        (s : state) (v tool_use : json) (others : list json) :
  let asked :=
    (conversation s ++
     [JDict [("role", JStr "user"); ("content", JStr user_input)]])%list in
  let payload := request_payload asked true in
  let o := requests_post E (requests_made s) API_URL (request_headers api_key)
                         payload in
  attempt o = Ok v -> is_reply v = true -> stops_for_tool v = true ->
  tool_use_blocks v = tool_use :: others ->
  let tool_name := name_of tool_use in
  let tool_input := input_of tool_use in
  let tool_result :=
    tool_outcome E (S (requests_made s)) tool_name tool_input in
  let is_error := has_error_key tool_result in
  let sent :=
    (asked ++
     [JDict [("role", JStr "assistant"); ("content", content_of v)];
      JDict [("role", JStr "user");
             ("content",
              JList [JDict [("type", JStr "tool_result");
                            ("tool_use_id", id_of tool_use);
                            ("content", JStr (json_dumps E tool_result));
                            ("is_error", JBool is_error)]])]])%list in
  let payload2 := request_payload sent true in
  let o2 := requests_post E (S (requests_made s)) API_URL
                          (request_headers api_key) payload2 in
  let s' := snd (cycle E api_key user_input s) in
  executions (trace s') =
  (executions (trace s) ++ [(tool_name, tool_input)])%list /\
  requests (trace s') = (requests (trace s) ++ [payload; payload2])%list /\
  requests_made s' = S (S (requests_made s)) /\
  (forall w,
      attempt o2 = Ok w -> truthy w = true -> is_reply w = true ->
      conversation s' =
      (sent ++
       [JDict [("role", JStr "assistant"); ("content", content_of w)]])%list).
Proof.
  intros asked payload o Ha Hr Hs Hb tool_name tool_input tool_result is_error
         sent payload2 o2 s'.
  destruct (cycle_with_tool api_key user_input s v tool_use others Ha Hr Hs Hb)
    as (r & r' & s2 & shown & between & after & Hcy & Htr & Hn & Hfw & _).
  subst s'. rewrite Hcy. cbn [snd].
  split; [rewrite Htr; observe; reflexivity|].
  split; [rewrite Htr; observe; reflexivity|].
  split; [exact Hn|].
  intros w Ha2 Hw Hr2. unfold forwarded in Hfw.
  destruct (received_reply o2 w Ha2) as (Hrec & _).
  unfold o2, payload2, sent, asked, is_error, tool_result, tool_name,
    tool_input in Hrec.
  unfold assistant_message, tool_result_message, user_message in Hfw.
  rewrite Hrec, Hw in Hfw.
  destruct Hfw as [(_ & Hconv)|(Hno & _)]; [exact Hconv|congruence].
Qed.

(** C4: a reply is acted on as a request for a tool exactly when its stop
    reason is ['tool_use'] and it holds a tool-invocation block; the tool
    then run, its input and the id sent back with the result are those of
    the first such block. *)
Theorem tool_request_is_first_block (api_key : json) (user_input : string)
        (s : state) (v : json) :
  let asked := (conversation s ++ [user_message user_input])%list in
  let payload := request_payload asked true in
  let o := requests_post E (requests_made s) API_URL (request_headers api_key)
                         payload in
  attempt o = Ok v -> is_reply v = true ->
  let s' := snd (cycle E api_key user_input s) in
  (executions (trace s') <> executions (trace s) <->
   stops_for_tool v = true /\ tool_use_blocks v <> []) /\
  (forall tool_use others,
      stops_for_tool v = true -> tool_use_blocks v = tool_use :: others ->
      let tool_result :=
        tool_outcome E (S (requests_made s)) (name_of tool_use)
                     (input_of tool_use) in
      executions (trace s') =
      (executions (trace s) ++ [(name_of tool_use, input_of tool_use)])%list /\
      requests (trace s') =
      (requests (trace s) ++
       [payload;
        request_payload
          (asked ++ [assistant_message (content_of v);
                     tool_result_message E (id_of tool_use) tool_result
                                         (has_error_key tool_result)])
          true])%list).
Proof.
  intros asked payload o Ha Hr s'.
  assert (Htool : forall tool_use others,
      stops_for_tool v = true -> tool_use_blocks v = tool_use :: others ->
      let tool_result :=
        tool_outcome E (S (requests_made s)) (name_of tool_use)
                     (input_of tool_use) in
      executions (trace s') =
      (executions (trace s) ++ [(name_of tool_use, input_of tool_use)])%list /\
      requests (trace s') =
      (requests (trace s) ++
       [payload;
        request_payload
          (asked ++ [assistant_message (content_of v);
                     tool_result_message E (id_of tool_use) tool_result
                                         (has_error_key tool_result)])
          true])%list).
  { intros tool_use others Hs Hb tool_result.
    destruct (cycle_with_tool api_key user_input s v tool_use others Ha Hr Hs Hb)
      as (r & r' & s2 & shown & between & after & Hcy & Htr & _).
    subst s'. rewrite Hcy. cbn [snd]. rewrite Htr. observe.
    split; reflexivity. }
  assert (Hnone : stops_for_tool v = false \/ tool_use_blocks v = [] ->
                  executions (trace s') = executions (trace s)).
  { intros Hno. subst s'.
    destruct (truthy v) eqn:Hv.
    - destruct (stops_for_tool v) eqn:Hs.
      + destruct Hno as [Hno|Hno]; [discriminate|].
        destruct (cycle_on_anomaly api_key user_input s v Ha Hr Hs Hno)
          as (shown & ->).
        cbn [snd trace]. observe. reflexivity.
      + destruct (cycle_on_reply api_key user_input s v Ha Hv Hr)
          as (shown & Hcy).
        cbv zeta in Hcy. rewrite Hs in Hcy. rewrite Hcy.
        unfold log. cbn [snd trace]. observe. reflexivity.
    - destruct (received_reply o v Ha) as (Hrec & _).
      rewrite (cycle_on_nothing api_key user_input s v Hrec Hv).
      cbn [snd trace]. observe. reflexivity. }
  split; [|exact Htool]. split.
  - intros Hex. destruct (stops_for_tool v).
    + split; [reflexivity|]. intros Hb. apply Hex, Hnone. now right.
    + exfalso. apply Hex, Hnone. now left.
  - intros (Hs & Hb). destruct (tool_use_blocks v) as [|tool_use others] eqn:Hbs;
      [congruence|].
    destruct (Htool tool_use others Hs eq_refl) as (Hex & _). rewrite Hex.
    intros Heq. apply (f_equal (@List.length _)) in Heq.
    rewrite length_app in Heq. cbn [List.length] in Heq. lia.
Qed.

(** C5: a reply that stops for a tool but holds no tool-invocation block is
    appended as it is, after the user's turn: the turn appended has the role
    [assistant] and, as its content, the very list of blocks that
    [response_data.get('content', [])] gives.  The anomaly is printed; no
    tool runs and the request that brought the reply is the only one sent. *)
Theorem anomaly_appends_reply (api_key : json) (user_input : string)
        (s : state) (v : json) :
  let user_turn := JDict [("role", JStr "user"); ("content", JStr user_input)] in
  let payload := request_payload (conversation s ++ [user_turn]) true in
  let o := requests_post E (requests_made s) API_URL (request_headers api_key)
                         payload in
  attempt o = Ok v -> is_reply v = true -> stops_for_tool v = true ->
  tool_use_blocks v = [] ->
  exists s' blocks,
    cycle E api_key user_input s = (Ok tt, s') /\
    py_get v "content" (JList []) = Ok (JList blocks) /\
    conversation s' =
    (conversation s ++
     [user_turn;
      JDict [("role", JStr "assistant"); ("content", JList blocks)]])%list /\
    executions (trace s') = executions (trace s) /\
    requests (trace s') = (requests (trace s) ++ [payload])%list /\
    requests_made s' = S (requests_made s) /\
    In (Printed anomaly_line) (trace s').
Proof.
  intros user_turn payload o Ha Hr Hs Hb.
  destruct (cycle_on_anomaly api_key user_input s v Ha Hr Hs Hb)
    as (shown & Hcy).
  destruct (reply_content v Hr) as (blocks & Hc & _ & Hco & _).
  rewrite Hco in Hcy.
  eexists _, blocks. split; [exact Hcy|]. split; [exact Hc|].
  cbn [conversation trace requests_made].
  split; [now rewrite <- app_assoc|]. split; [|split; [|split]].
  - observe. reflexivity.
  - observe. reflexivity.
  - reflexivity.
  - apply in_or_app. right. right. right. rewrite map_app.
    apply in_or_app. right. now left.
Qed.

(** C6: [execute_tool] returns for every name and input, and what it returns
    is a dict.  A name other than ['search_web'] gives the error ["Unknown
    tool: <name>"]; an exception raised by [search_web] gives the error
    ["Error executing tool <name>: <message>"]; both results hold the key
    ['error'], which is what makes [is_error] true. *)
Theorem execute_tool_never_raises (tool_name tool_input : json) (s : state) :
  let tool_result := tool_outcome E (requests_made s) tool_name tool_input in
  (exists lines,
      execute_tool E tool_name tool_input s =
      (Ok tool_result,
       log (Executing tool_name tool_input :: map Printed lines) s)) /\
  (exists d, tool_result = JDict d) /\
  (eq_str tool_name "search_web" = false ->
   tool_result =
   JDict [("error", JStr ("Unknown tool: " ++ py_str E tool_name))] /\
   has_error_key tool_result = true) /\
  (forall e s0 s1,
      eq_str tool_name "search_web" = true ->
      search_web E tool_input s0 = (Raise e, s1) ->
      tool_result =
      JDict [("error", JStr ("Error executing tool " ++ py_str E tool_name ++
                             ": " ++ exn_str e))] /\
      has_error_key tool_result = true).
Proof.
  intros tool_result.
  destruct (execute_tool_returns tool_name tool_input s)
    as (lines & d & Hx & Ho).
  fold tool_result in Ho. split; [|split; [|split]].
  - exists lines. now rewrite Ho.
  - now exists d.
  - intros Hn. subst tool_result.
    unfold tool_outcome, execute_tool, try_except. run. rewrite Hn.
    split; reflexivity.
  - intros e s0 s1 Hn Hraise. subst tool_result.
    unfold tool_outcome, execute_tool, try_except. run. rewrite Hn.
    unfold search_web, now in *. revert Hraise. run.
    pose proof (catchable_get tool_input "query" (JStr "")) as C.
    destruct (py_get tool_input "query" (JStr "")) as [q|e']; [discriminate|].
    intros H. injection H as -> _. cbn [catchable] in C. rewrite C.
    split; reflexivity.
Qed.


(** C8: when the first request of a cycle fails, the cycle ends with the
    conversation it had plus the user's turn and nothing else; the failure
    is printed; the run holds one request, no tool call and none of the
    lines of a recovery. *)
Theorem first_failure_keeps_user_turn (api_key : json) (user_input : string)
        (s : state) :
  let asked := (conversation s ++ [user_message user_input])%list in
  let payload := request_payload asked true in
  let o := requests_post E (requests_made s) API_URL (request_headers api_key)
                         payload in
  transport_failure o ->
  cycle E api_key user_input s =
  (Ok tt,
   mkState asked
           (trace s ++
            Printed thinking_line ::
            Posted API_URL (request_headers api_key) payload ::
            map Printed (diagnostic o ++ [no_response_line; reset_hint_line]))
           (S (requests_made s))).
Proof.
  intros asked payload o Hfail.
  unfold cycle, try_except. run. send. fold asked. fold payload. fold o.
  rewrite (transport_failure_received o Hfail). cbn [truthy negb]. tidy.
  rewrite map_app. reflexivity.
Qed.


(** C10: the tool-result block sent after a tool has returned carries
    [is_error = True] exactly when the tool's result has the key ['error'].
    This holds of every invocation a cycle processes, where the result is
    the one [execute_tool] returns, and of the code that handles the result
    whatever mapping [d] it is handed: a result that holds the key, though
    the tool did its work, is reported as a failure. *)
Theorem is_error_iff_error_key (api_key : json) :
  (forall (user_input : string) (s : state) (v tool_use : json)
          (others : list json),
      let asked :=
        (conversation s ++
         [JDict [("role", JStr "user"); ("content", JStr user_input)]])%list in
      let payload := request_payload asked true in
      let o := requests_post E (requests_made s) API_URL
                             (request_headers api_key) payload in
      attempt o = Ok v -> is_reply v = true -> stops_for_tool v = true ->
      tool_use_blocks v = tool_use :: others ->
      exists (d : list (string * json)) (is_error : bool),
        tool_outcome E (S (requests_made s)) (name_of tool_use)
                     (input_of tool_use) = JDict d /\
        requests (trace (snd (cycle E api_key user_input s))) =
        (requests (trace s) ++
         [payload;
          request_payload
            (asked ++
             [JDict [("role", JStr "assistant"); ("content", content_of v)];
              JDict [("role", JStr "user");
                     ("content",
                      JList [JDict [("type", JStr "tool_result");
                                    ("tool_use_id", id_of tool_use);
                                    ("content", JStr (json_dumps E (JDict d)));
                                    ("is_error", JBool is_error)]])]])
            true])%list /\
        (is_error = true <-> exists x, lookup "error" d = Some x)) /\
  (forall (v c tool_id : json) (d : list (string * json)) (s : state),
      py_get v "content" (JList []) = Ok c ->
      exists is_error : bool,
        requests
          (trace (snd (forward_tool_result E api_key v (conversation s)
                                           tool_id (JDict d) s))) =
        (requests (trace s) ++
         [request_payload
            (conversation s ++
             [JDict [("role", JStr "assistant"); ("content", c)];
              JDict [("role", JStr "user");
                     ("content",
                      JList [JDict [("type", JStr "tool_result");
                                    ("tool_use_id", tool_id);
                                    ("content", JStr (json_dumps E (JDict d)));
                                    ("is_error", JBool is_error)]])]])
            true])%list /\
        (is_error = true <-> exists x, lookup "error" d = Some x)).
Proof.
  split.
  - intros user_input s v tool_use others asked payload o Ha Hr Hs Hb.
    destruct (cycle_with_tool api_key user_input s v tool_use others
                              Ha Hr Hs Hb)
      as (r & r' & s' & shown & between & after & Hcy & Htr & _).
    destruct (execute_tool_returns (name_of tool_use) (input_of tool_use)
                                   (mkState [] [] (S (requests_made s))))
      as (lines & d & _ & Ho).
    cbn [requests_made] in Ho. rewrite Ho in Htr.
    exists d, (has_error_key (JDict d)).
    split; [exact Ho|]. split; [|apply has_error_key_lookup].
    rewrite Hcy. cbn [snd]. rewrite Htr. observe. reflexivity.
  - intros v c tool_id d s Hc.
    destruct (forward_tool_result_runs api_key v c tool_id d s Hc)
      as (r & s2 & before & after & Hfw & Htr & _).
    exists (has_error_key (JDict d)). split; [|apply has_error_key_lookup].
    rewrite Hfw. cbn [snd]. rewrite Htr. observe. reflexivity.
Qed.

(** ** Further properties of the script *)

(** *** The restoring loop *)

(** X1: the loop of the recovery ends for every conversation and every copy,
    pops nothing when the conversation is no longer than the copy, and
    otherwise leaves the first [len(conversation_copy)] messages; it prints
    nothing and never pops from an empty list. *)
Theorem restore_leaves_prefix (copy : list json) (s : state) :
  exists s',
    restore copy s = (Ok tt, s') /\
    trace s' = trace s /\ requests_made s' = requests_made s /\
    conversation s' = firstn (List.length copy) (conversation s) /\
    List.length (conversation s') =
    Nat.min (List.length copy) (List.length (conversation s)) /\
    (List.length (conversation s) <= List.length copy ->
     conversation s' = conversation s).
Proof.
  eexists. split; [apply restore_cuts|]. cbn [conversation trace requests_made].
  repeat split.
  - apply length_firstn.
  - intros H. now apply firstn_all2.
Qed.

(** *** Showing a reply *)

(** X2: [display_response] only prints.  Whatever it is given, it leaves the
    conversation alone, sends no request and runs no tool; what it raises,
    if anything, is an [Exception]; on a reply it raises nothing. *)
Theorem display_response_only_prints (response_data : json) (s : state) :
  let r := fst (display_response E response_data s) in
  let s' := snd (display_response E response_data s) in
  conversation s' = conversation s /\
  requests_made s' = requests_made s /\
  executions (trace s') = executions (trace s) /\
  requests (trace s') = requests (trace s) /\
  catchable r /\
  (is_reply response_data = true -> r = Ok tt).
Proof.
  destruct (display_response_prints response_data s)
    as (r & lines & H & C & B).
  cbv zeta. rewrite H. unfold log. cbn [fst snd conversation trace requests_made].
  observe. repeat split; assumption.
Qed.

Lemma display_other_block (b : json) (s : state) :
  is_block b = true -> has_type "text" b = false ->
  display_content E b s = (Ok tt, s).
Proof.
  unfold is_block, has_type, display_content.
  destruct b; try discriminate. cbn [py_get]. run.
  intros _ ->. reflexivity.
Qed.

(** X3: only text blocks are shown: a reply without a text block, such as
    one made of tool-invocation blocks, prints nothing. *)
Theorem display_response_shows_text_only (response_data : json) (s : state) :
  is_reply response_data = true ->
  filter (has_type "text") (blocks_of response_data) = [] ->
  display_response E response_data s = (Ok tt, s).
Proof.
  intros Hr Hnone.
  destruct (reply_content response_data Hr) as (l & Hc & Hb & _ & Hl).
  unfold display_response. rewrite Hc. run. cbn [py_iter].
  rewrite Hl in Hnone. clear Hc Hl Hr.
  induction l as [|b l IH]; [reflexivity|].
  cbn [forallb filter] in Hb, Hnone. apply andb_prop in Hb.
  destruct Hb as [Hb Hbs].
  destruct (has_type "text" b) eqn:Ht; [discriminate Hnone|].
  cbn [for_each]. unfold bind. rewrite (display_other_block b s Hb Ht).
  now apply IH.
Qed.

Lemma append_cons_assoc (a : string) (c : ascii) (b : string) :
  (a ++ String c "") ++ b = a ++ String c b.
Proof. induction a as [|x a IH]; cbn; [reflexivity|now rewrite IH]. Qed.

Lemma append_empty (a : string) : a ++ "" = a.
Proof. induction a as [|x a IH]; cbn; [reflexivity|now rewrite IH]. Qed.

Lemma split_without (c0 : ascii) (sep0 s : string) :
  forall cur, contains (String c0 sep0) s = false ->
              split_from (String c0 sep0) 0 cur s = [cur ++ s].
Proof.
  induction s as [|c s IH]; intros cur H.
  - cbn [split_from]. now rewrite append_empty.
  - cbn [contains] in H. apply orb_false_elim in H. destruct H as [Hp Hs].
    cbn [split_from]. rewrite Hp, (IH _ Hs), append_cons_assoc. reflexivity.
Qed.

(** X4: [format_response] changes nothing but the two characters backslash
    and n, in a string: a string without them, and any value that is no
    string, comes back as it is. *)
Theorem format_response_plain (content : json) :
  (forall s, content = JStr s -> contains "\n" s = false) ->
  format_response content = content.
Proof.
  intros H. destruct content; try reflexivity.
  cbn [format_response]. unfold replace, split.
  rewrite (split_without _ _ _ "" (H _ eq_refl)). reflexivity.
Qed.

(** *** The thinking section of a text *)

Lemma append_assoc3 (a b c : string) : (a ++ b) ++ c = a ++ b ++ c.
Proof. induction a as [|x a IH]; cbn; [reflexivity|now rewrite IH]. Qed.

Lemma starts_with_app (p y : string) : starts_with p (p ++ y) = true.
Proof.
  induction p as [|c p IH]; [reflexivity|].
  cbn. now rewrite Ascii.eqb_refl, IH.
Qed.

Lemma contains_start (sep s : string) :
  starts_with sep s = true -> contains sep s = true.
Proof. destruct s; cbn [contains]; intros ->; reflexivity. Qed.

Lemma contains_app (sep p q : string) : contains sep (p ++ sep ++ q) = true.
Proof.
  induction p as [|c p IH].
  - change ("" ++ sep ++ q) with (sep ++ q).
    apply contains_start, starts_with_app.
  - change (contains sep (String c p ++ sep ++ q))
      with (starts_with sep (String c (p ++ sep ++ q)) ||
            contains sep (p ++ sep ++ q)).
    rewrite IH. apply orb_true_r.
Qed.

Lemma split_from_free (c0 : ascii) (sep0 p q : string) :
  forall cur,
    free_of c0 p = true ->
    split_from (String c0 sep0) 0 cur (p ++ q) =
    split_from (String c0 sep0) 0 (cur ++ p) q.
Proof.
  induction p as [|x p IH]; intros cur Hfree.
  - now rewrite append_empty.
  - cbn [free_of] in Hfree. apply andb_prop in Hfree.
    destruct Hfree as [Hx Hp]. apply negb_true_iff in Hx.
    cbn [String.append split_from starts_with].
    rewrite Ascii.eqb_sym, Hx. cbn [andb].
    rewrite (IH _ Hp), append_cons_assoc. reflexivity.
Qed.

Lemma split_from_skip (sep x y : string) :
  forall cur, split_from sep (String.length x) cur (x ++ y) =
              split_from sep 0 cur y.
Proof. induction x as [|c x IH]; intros cur; [reflexivity|apply IH]. Qed.

Lemma split_from_sep (c0 : ascii) (sep0 y cur : string) :
  split_from (String c0 sep0) 0 cur (String c0 sep0 ++ y) =
  cur :: split_from (String c0 sep0) 0 "" y.
Proof.
  cbn [String.append split_from].
  change (String c0 (sep0 ++ y)) with (String c0 sep0 ++ y).
  rewrite starts_with_app.
  change (String.length (String c0 sep0) - 1) with (String.length sep0 - 0).
  rewrite Nat.sub_0_r. now rewrite split_from_skip.
Qed.

Lemma split_from_head (sep s : string) :
  forall cur, exists tail l, split_from sep 0 cur s = (cur ++ tail) :: l.
Proof.
  induction s as [|c s IH]; intros cur; cbn [split_from].
  - exists "", []. now rewrite append_empty.
  - destruct (starts_with sep (String c s)).
    + exists "". eexists. now rewrite append_empty.
    + destruct (IH (cur ++ String c "")) as (tail & l & ->).
      exists (String c tail), l. now rewrite append_cons_assoc.
Qed.

Lemma split_from_close (cur y : string) :
  split_from "<thinking>" 0 cur ("</thinking>" ++ y) =
  split_from "<thinking>" 0 (cur ++ "</thinking>") y.
Proof.
  assert (H : starts_with "<thinking>" (String "<" ("/thinking>" ++ y)) = false)
    by reflexivity.
  change ("</thinking>" ++ y) with (String "<" ("/thinking>" ++ y)).
  cbn [split_from]. rewrite H.
  rewrite (split_from_free "<" "thinking>" "/thinking>") by reflexivity.
  rewrite append_assoc3. reflexivity.
Qed.

(** X18: of a text that holds a thinking section, [display_response] first
    prints what stands between the first [<thinking>] and the [</thinking>]
    after it, stripped as [str.strip()] strips it (of the white space of
    Unicode, not of ASCII alone), as Claude's thinking, and then at most one
    line more (here for texts whose parts before and inside the section hold
    no [<]). *)
Theorem thinking_is_shown_first (d : list (string * json))
        (before inside after : string) (s : state) :
  lookup "type" d = Some (JStr "text") ->
  lookup "text" d =
  Some (JStr (before ++ "<thinking>" ++ inside ++ "</thinking>" ++ after)) ->
  free_of "<" before = true -> free_of "<" inside = true ->
  exists rest,
    display_content E (JDict d) s =
    (Ok tt,
     log (Printed (Fore_YELLOW ++ "Claude's thinking: " ++ strip inside ++
                   Style_RESET_ALL) :: map Printed rest) s) /\
    List.length rest <= 1.
Proof.
  intros Hty Htext Hb Hi.
  set (t := before ++ "<thinking>" ++ inside ++ "</thinking>" ++ after) in *.
  assert (Hopen : contains "<thinking>" t = true) by apply contains_app.
  assert (Hclose : contains "</thinking>" t = true).
  { replace t
      with ((before ++ "<thinking>" ++ inside) ++ "</thinking>" ++ after)
      by (subst t; now rewrite !append_assoc3).
    apply contains_app. }
  assert (Hsplit : exists tail l,
             split t "<thinking>" =
             before :: (inside ++ "</thinking>" ++ tail) :: l).
  { unfold split. subst t. rewrite split_from_free by exact Hb.
    change ("" ++ before) with before.
    rewrite (split_from_sep "<" "thinking>").
    rewrite split_from_free by exact Hi. change ("" ++ inside) with inside.
    rewrite split_from_close.
    destruct (split_from_head "<thinking>" after (inside ++ "</thinking>"))
      as (tail & l & ->).
    exists tail, l. rewrite !append_assoc3. reflexivity. }
  destruct Hsplit as (tail & l & Hsplit).
  assert (Hinner : exists l',
             split (inside ++ "</thinking>" ++ tail) "</thinking>" =
             inside :: l').
  { unfold split. rewrite split_from_free by exact Hi.
    change ("" ++ inside) with inside.
    rewrite (split_from_sep "<" "/thinking>"). eauto. }
  destruct Hinner as (l' & Hinner).
  unfold display_content. cbn [py_get]. rewrite Hty, Htext. run.
  cbn [eq_str String.eqb Ascii.eqb Bool.eqb py_in].
  rewrite Hopen, Hclose, Hsplit. cbn [py_index nth_error].
  rewrite Hinner. cbn [py_index nth_error].
  match goal with
  | |- context [truthy ?x] => destruct (truthy x)
  end.
  - eexists [_]. tidy. split; [reflexivity|]. cbn. lia.
  - exists []. tidy. split; [reflexivity|]. cbn. lia.
Qed.

(** *** The tool *)

(** X5: a search reports an error exactly when its input is no dict.  On a
    dict it echoes the query (the empty string when the key is missing),
    and gives three results and the count 3. *)
Theorem search_web_result (n : nat) (tool_input : json) :
  let tool_result := tool_outcome E n (JStr "search_web") tool_input in
  (has_error_key tool_result = true <-> forall d, tool_input <> JDict d) /\
  (forall d,
      tool_input = JDict d ->
      py_get tool_result "query" JNull =
      Ok (match lookup "query" d with Some q => q | None => JStr "" end) /\
      py_get tool_result "result_count" JNull = Ok (JInt 3) /\
      exists results,
        py_get tool_result "results" JNull = Ok (JList results) /\
        List.length results = 3).
Proof.
  cbv zeta. unfold tool_outcome, execute_tool, try_except, search_web, now.
  run. cbn [eq_str String.eqb Ascii.eqb Bool.eqb].
  destruct tool_input as [ | | | | | |d]; cbn [py_get is_Exception no_attribute
                                                exn_class fst has_error_key
                                                existsb];
    try (split; [split; [intros _ d H; discriminate H|reflexivity]
                |intros d H; discriminate H]).
  split.
  - split; [discriminate|]. intros H. destruct (H d eq_refl).
  - intros d' H. injection H as <-. repeat split. eexists. split; reflexivity.
Qed.

(** *** The transport *)

(** X6: whatever comes of it, a call of [send_message] sends exactly one
    request, runs no tool and leaves the conversation alone.  The request
    carries the messages as given and the catalogue of tools exactly when
    [include_tools] is set. *)
Theorem send_message_one_request (api_key : json) (messages : list json)
        (include_tools : bool) (s : state) :
  let payload := request_payload messages include_tools in
  let s' := snd (send_message E api_key messages include_tools s) in
  conversation s' = conversation s /\
  requests_made s' = S (requests_made s) /\
  requests (trace s') = (requests (trace s) ++ [payload])%list /\
  executions (trace s') = executions (trace s) /\
  py_get payload "messages" JNull = Ok (JList messages) /\
  py_get payload "tools" JNull = Ok (if include_tools then TOOLS else JNull).
Proof.
  cbv zeta. rewrite send_message_sends.
  cbn [snd conversation trace requests_made]. observe.
  repeat split; destruct include_tools; reflexivity.
Qed.

(** X7: when the status is none of 400..599 and the body decodes,
    [send_message] returns what the body decodes to, whatever its shape, and
    prints nothing. *)
Theorem send_message_returns_body (api_key : json) (messages : list json)
        (include_tools : bool) (s : state) (r : response) (v : json) :
  let payload := request_payload messages include_tools in
  requests_post E (requests_made s) API_URL (request_headers api_key) payload =
  Responds r ->
  ~ (400 <= status_code r < 600)%Z ->
  body r = inl v ->
  send_message E api_key messages include_tools s =
  (Ok v,
   mkState (conversation s)
           (trace s ++ [Posted API_URL (request_headers api_key) payload])
           (S (requests_made s))).
Proof.
  intros payload Ho Hstatus Hbody. rewrite send_message_sends. fold payload.
  assert (Ha : attempt (requests_post E (requests_made s) API_URL
                                      (request_headers api_key) payload) = Ok v).
  { rewrite Ho. unfold attempt, response_json.
    now rewrite (raise_for_status_ok _ _ Hstatus), Hbody. }
  destruct (received_reply _ _ Ha) as (-> & ->). reflexivity.
Qed.

(** *** One user input, whatever the service does *)

Ltac quiet :=
  tidy; eexists; split; [reflexivity|left; observe; repeat split].

(** What a cycle puts on the trace: the line, the request, and then either
    nothing but printed lines, or one tool call followed by one request. *)
Lemma cycle_trace (api_key : json) (user_input : string) (s : state) :
  let asked := (conversation s ++ [user_message user_input])%list in
  let payload := request_payload asked true in
  let s' := snd (cycle E api_key user_input s) in
  exists new,
    trace s' =
    (trace s ++ Printed thinking_line ::
     Posted API_URL (request_headers api_key) payload :: new)%list /\
    ((executions new = [] /\ requests new = [] /\
      requests_made s' = S (requests_made s)) \/
     (exists call payload2,
         executions new = [call] /\ requests new = [payload2] /\
         requests_made s' = S (S (requests_made s)))).
Proof.
  intros asked payload s'. subst s'.
  unfold cycle, try_except. run. send. fold asked. fold payload.
  set (o := requests_post E (requests_made s) API_URL (request_headers api_key)
                          payload).
  destruct (received o) as [v|e].
  2:{ destruct (is_Exception e); quiet. }
  destruct (truthy v); cbn [negb]; [|quiet].
  pose proof (catchable_get v "stop_reason" JNull) as Cs.
  destruct (py_get v "stop_reason" JNull) as [reason|e].
  2:{ cbn [catchable] in Cs. rewrite Cs. quiet. }
  pose proof (catchable_get v "content" (JList [])) as Cc.
  destruct (eq_str reason "tool_use").
  - display. destruct shown as [[]|e].
    2:{ cbn [catchable] in Cd. rewrite Cd. quiet. }
    match goal with
    | |- context [process_tool_use_response E api_key v ?s1] =>
        destruct (process_tool_use_response_runs api_key v s1)
          as (r1 & s2 & Hp & Hcase)
    end.
    rewrite Hp. clear Hp.
    pose proof (first_tool_use_of_catchable v) as Cf.
    destruct (first_tool_use_of v) as [tool_use|e].
    2:{ destruct Hcase as (-> & ->). cbn [catchable] in Cf. rewrite Cf.
        quiet. }
    destruct (truthy tool_use).
    + cbv zeta in Hcase. cbn [conversation trace requests_made] in Hcase.
      destruct Hcase as (before & between & after & Htr & Hn & _).
      destruct r1 as [w|e]; [|destruct (is_Exception e)];
        tidy; rewrite Htr; rewrite <- ?app_assoc; cbn [app];
        rewrite <- ?app_assoc; cbn [app];
        (eexists; split;
         [reflexivity
         |right; eexists _, _; observe; repeat split; exact Hn]).
    + destruct Hcase as (-> & ->). quiet.
  - display. destruct shown as [[]|e].
    2:{ cbn [catchable] in Cd. rewrite Cd. quiet. }
    destruct (py_get v "content" (JList [])) as [c|e].
    + quiet.
    + cbn [catchable] in Cc. rewrite Cc. quiet.
Qed.

(** X8: whatever the service sends, well formed or not, one user input
    makes one request or two, and runs one tool at most; the second request
    is sent exactly when a tool has run. *)
Theorem cycle_one_tool_two_requests (api_key : json) (user_input : string)
        (s : state) :
  let asked := (conversation s ++ [user_message user_input])%list in
  let payload := request_payload asked true in
  let s' := snd (cycle E api_key user_input s) in
  exists calls more,
    executions (trace s') = (executions (trace s) ++ calls)%list /\
    requests (trace s') = (requests (trace s) ++ payload :: more)%list /\
    requests_made s' = requests_made s + 1 + List.length more /\
    ((calls = [] /\ more = []) \/
     (exists call payload2, calls = [call] /\ more = [payload2])).
Proof.
  cbv zeta.
  destruct (cycle_trace api_key user_input s)
    as (new & Htr & [(Hx & Hq & Hn)|(call & p2 & Hx & Hq & Hn)]);
    cbv zeta in Htr, Hn; rewrite Htr, Hn; observe; rewrite Hx, Hq.
  - exists [], []. rewrite app_nil_r. cbn [List.length].
    repeat split; [lia|now left].
  - exists [call], [p2]. cbn [List.length].
    repeat split; [lia|right; eauto].
Qed.


(** X10: a body that decodes to a falsy value, such as the empty mapping, is
    handled as no response at all: the user's turn stays, nothing is
    appended, the failure lines are printed, and that is all. *)
Theorem empty_reply_is_no_response (api_key : json) (user_input : string)
        (s : state) (v : json) :
  let asked := (conversation s ++ [user_message user_input])%list in
  let payload := request_payload asked true in
  let o := requests_post E (requests_made s) API_URL (request_headers api_key)
                         payload in
  attempt o = Ok v -> truthy v = false ->
  cycle E api_key user_input s =
  (Ok tt,
   mkState asked
           (trace s ++
            [Printed thinking_line;
             Posted API_URL (request_headers api_key) payload;
             Printed no_response_line; Printed reset_hint_line])
           (S (requests_made s))).
Proof.
  intros asked payload o Ha Hv.
  destruct (received_reply o v Ha) as (Hrec & Hdiag).
  rewrite (cycle_on_nothing api_key user_input s v Hrec Hv).
  fold asked payload o. now rewrite Hdiag.
Qed.

(** X11: a body that decodes to a truthy value without [get] (a list, a
    string, a number) makes [main] print the [AttributeError] and go on: the
    user's turn stays and nothing else is appended. *)
Theorem reply_without_get_is_reported (api_key : json) (user_input : string)
        (s : state) (v : json) :
  let asked := (conversation s ++ [user_message user_input])%list in
  let payload := request_payload asked true in
  let o := requests_post E (requests_made s) API_URL (request_headers api_key)
                         payload in
  attempt o = Ok v -> truthy v = true -> (forall d, v <> JDict d) ->
  cycle E api_key user_input s =
  (Ok tt,
   mkState asked
           (trace s ++
            [Printed thinking_line;
             Posted API_URL (request_headers api_key) payload;
             Printed (error_line (no_attribute v "get"));
             Printed reset_hint_line])
           (S (requests_made s))).
Proof.
  intros asked payload o Ha Hv Hd.
  destruct (received_reply o v Ha) as (Hrec & Hdiag).
  unfold cycle, try_except. run. send. fold asked. fold payload. fold o.
  rewrite Hrec, Hdiag, Hv. cbn [negb map].
  destruct v as [ | | | | | |d];
    try (cbn [py_get is_Exception no_attribute exn_class]; tidy; reflexivity).
  destruct (Hd d eq_refl).
Qed.

(** X12: a falsy body in answer to the tool's result is handled like a
    failed request, though the request went through: the assistant's turn
    and the tool-result turn are taken off again. *)
Theorem empty_follow_up_rolls_back (api_key : json) (user_input : string)
        (s : state) (v tool_use : json) (others : list json) (w : json) :
  let asked := (conversation s ++ [user_message user_input])%list in
  let payload := request_payload asked true in
  let o := requests_post E (requests_made s) API_URL (request_headers api_key)
                         payload in
  attempt o = Ok v -> is_reply v = true -> stops_for_tool v = true ->
  tool_use_blocks v = tool_use :: others ->
  let tool_name := name_of tool_use in
  let tool_input := input_of tool_use in
  let tool_result :=
    tool_outcome E (S (requests_made s)) tool_name tool_input in
  let sent :=
    (asked ++ [assistant_message (content_of v);
               tool_result_message E (id_of tool_use) tool_result
                                   (has_error_key tool_result)])%list in
  let payload2 := request_payload sent true in
  let o2 := requests_post E (S (requests_made s)) API_URL
                          (request_headers api_key) payload2 in
  attempt o2 = Ok w -> truthy w = false ->
  exists s',
    cycle E api_key user_input s = (Ok tt, s') /\
    conversation s' = asked /\
    requests (trace s') = (requests (trace s) ++ [payload; payload2])%list.
Proof.
  intros asked payload o Ha Hr Hs Hb tool_name tool_input tool_result sent
         payload2 o2 Ha2 Hw.
  destruct (cycle_with_tool api_key user_input s v tool_use others Ha Hr Hs Hb)
    as (r & r' & s' & shown & between & after & Hcy & Htr & _ & Hfw & Hres).
  fold asked payload tool_name tool_input tool_result sent payload2 o2
    in Htr, Hfw.
  unfold forwarded in Hfw.
  destruct (received_reply o2 w Ha2) as (Hrec & _). rewrite Hrec, Hw in Hfw.
  destruct Hfw as (-> & Hconv). subst r.
  exists s'. split; [exact Hcy|]. split; [exact Hconv|].
  rewrite Htr. observe. reflexivity.
Qed.

(** X13: the turn of an input whose request failed is neither dropped nor
    sent again by itself: the request of the next input carries the two
    user turns one after the other. *)
Theorem failed_input_is_sent_with_the_next (api_key : json) (first second : string)
        (s : state) :
  let asked := (conversation s ++ [user_message first])%list in
  let o := requests_post E (requests_made s) API_URL (request_headers api_key)
                         (request_payload asked true) in
  transport_failure o ->
  let s1 := snd (cycle E api_key first s) in
  let s2 := snd (cycle E api_key second s1) in
  exists new,
    trace s2 =
    (trace s1 ++ Printed thinking_line ::
     Posted API_URL (request_headers api_key)
            (request_payload
               (conversation s ++ [user_message first; user_message second])
               true) :: new)%list.
Proof.
  intros asked o Hfail s1 s2.
  destruct (cycle_trace api_key second s1) as (new & Htr & _).
  cbv zeta in Htr. fold s2 in Htr. exists new. rewrite Htr.
  subst s1.
  rewrite (cycle_on_nothing api_key first s JNull
             (transport_failure_received o Hfail) eq_refl).
  cbn [snd conversation trace]. subst asked.
  rewrite <- (app_assoc (conversation s)). reflexivity.
Qed.

(** *** The loop of [main] *)

Lemma cycle_raises_no_exception (api_key : json) (user_input : string)
      (s s1 : state) (e : exn) :
  cycle E api_key user_input s = (Raise e, s1) -> is_Exception e = false.
Proof.
  unfold cycle, try_except.
  match goal with
  | |- context [match ?m with pair _ _ => _ end] =>
      destruct m as [[[]|e0] s0]
  end; [discriminate|].
  destruct (is_Exception e0) eqn:He; run; [discriminate|].
  intros H. injection H as <- _. exact He.
Qed.

(** A run on [before ++ after] is the run on [before], if that one ends for
    want of a line, followed by the run on [after]. *)
Lemma main_loop_app (api_key : json) (before after : list string) :
  forall s s1,
    main_loop E api_key before s = (Raise end_of_input, s1) ->
    main_loop E api_key (before ++ after) s = main_loop E api_key after s1.
Proof.
  induction before as [|line before IH]; intros s s1.
  - cbn [main_loop app]. unfold input. run. intros H. injection H as <-.
    reflexivity.
  - cbn [main_loop app]. unfold input. run.
    destruct (existsb (String.eqb (lower line)) ["exit"; "quit"; "q"]);
      [discriminate|].
    destruct (lower line =? "reset"); [apply IH|].
    match goal with
    | |- context [cycle E api_key line ?s0] =>
        destruct (cycle E api_key line s0) as [[[]|e] s2] eqn:Hcy
    end.
    + apply IH.
    + intros H. injection H as -> _.
      discriminate (cycle_raises_no_exception _ _ _ _ _ Hcy).
Qed.

(** X14: the line [reset], in any case of its letters, empties the
    conversation and sends nothing: after it the run goes on as from an
    empty conversation, whatever turns had been gathered before. *)
Theorem reset_clears_conversation (api_key : json)
        (before after : list string) (line : string) (s s1 : state) :
  main_loop E api_key before s = (Raise end_of_input, s1) ->
  is_reset line = true ->
  main_loop E api_key (before ++ line :: after) s =
  main_loop E api_key after
            (mkState [] (trace s1 ++ [Prompted prompt line; Printed reset_line])
                     (requests_made s1)).
Proof.
  intros Hrun Hreset. rewrite (main_loop_app _ _ _ _ _ Hrun).
  cbn [main_loop]. unfold input. run. unfold is_reset in Hreset.
  rewrite Hreset. apply String.eqb_eq in Hreset. rewrite Hreset.
  cbn [existsb String.eqb Ascii.eqb Bool.eqb orb]. tidy. reflexivity.
Qed.

(** X15: the lines [exit], [quit] and [q], in any case of their letters, end
    the loop at once: [main] returns, no request is sent, the conversation
    stays as it is and the lines after are never read. *)
Theorem exit_ends_the_loop (api_key : json)
        (before after : list string) (line : string) (s s1 : state) :
  main_loop E api_key before s = (Raise end_of_input, s1) ->
  is_exit line = true ->
  main_loop E api_key (before ++ line :: after) s =
  (Ok tt,
   mkState (conversation s1)
           (trace s1 ++ [Prompted prompt line; Printed goodbye_line])
           (requests_made s1)).
Proof.
  intros Hrun Hexit. rewrite (main_loop_app _ _ _ _ _ Hrun).
  cbn [main_loop]. unfold input. run. unfold is_exit in Hexit.
  rewrite Hexit. tidy. reflexivity.
Qed.

(** X16: over a whole run, whatever the service and the lines: at most two
    requests and at most one tool call for each line read. *)
Theorem run_is_bounded (api_key : json) (lines : list string) :
  forall s,
    let s' := snd (main_loop E api_key lines s) in
    requests_made s' <= requests_made s + 2 * List.length lines /\
    List.length (executions (trace s')) <=
    List.length (executions (trace s)) + List.length lines.
Proof.
  induction lines as [|line lines IH]; intros s; cbv zeta.
  - cbn [main_loop]. unfold input. run. cbn [List.length]. lia.
  - cbn [main_loop]. unfold input. run. cbn [List.length].
    destruct (existsb (String.eqb (lower line)) ["exit"; "quit"; "q"]).
    { tidy. observe. lia. }
    destruct (lower line =? "reset").
    { cbn [conversation trace requests_made].
      match goal with
      | |- context [main_loop E api_key lines ?s0] => specialize (IH s0)
      end.
      cbv zeta in IH. cbn [conversation trace requests_made] in IH.
      rewrite !executions_app in IH. cbn [executions] in IH.
      rewrite !app_nil_r in IH. lia. }
    cbn [conversation trace requests_made].
    match goal with
    | |- context [cycle E api_key line ?s0] =>
        destruct (cycle_trace api_key line s0) as (new & Htr & Hcount);
        cbv zeta in Htr, Hcount;
        cbn [conversation trace requests_made] in Htr, Hcount;
        destruct (cycle E api_key line s0) as [[[]|e] s2]
    end; cbn [snd] in *.
    + specialize (IH s2). cbv zeta in IH. revert IH. rewrite Htr. observe.
      destruct Hcount as [(-> & _ & ->)|(call & p2 & -> & _ & ->)];
        rewrite ?length_app; cbn [List.length]; lia.
    + rewrite Htr. observe.
      destruct Hcount as [(-> & _ & ->)|(call & p2 & -> & _ & ->)];
        rewrite ?length_app; cbn [List.length]; lia.
Qed.

(** *** The start of [main] *)

(** X17: without a key there is no chat.  When the key file cannot be read,
    when what it holds is no mapping, when the mapping lacks the key or
    holds a falsy one, [main] prints the banner and one line of error and
    exits with status 1: no line is read, no request sent, and the state is
    otherwise untouched. *)
Theorem no_key_no_chat (loaded : result json) (lines : list string)
        (s : state) :
  (exists e, loaded = Raise e /\ is_Exception e = true) \/
  (exists v, loaded = Ok v /\ forall d, v <> JDict d) \/
  (exists d, loaded = Ok (JDict d) /\
             truthy (match lookup "anthropic_api_key" d with
                     | Some k => k
                     | None => JNull
                     end) = false) ->
  exists line,
    main_script E loaded lines s =
    (Raise exit_1, log (map Printed (banner ++ [line])) s).
Proof.
  unfold main_script, load_api_key, try_except.
  intros [(e & -> & He)|[(v & -> & Hv)|(d & -> & Hk)]]; run.
  - rewrite He. exists (load_error_line e). tidy. reflexivity.
  - exists (load_error_line (no_attribute v "get")).
    destruct v as [ | | | | | |d];
      try (cbn [py_get is_Exception no_attribute exn_class]; tidy;
           reflexivity).
    destruct (Hv d eq_refl).
  - cbn [py_get]. rewrite Hk. cbn [negb]. exists no_key_line. tidy.
    reflexivity.
Qed.

(** With a mapping in the key file, [main_script] is [main] from the value
    the mapping holds for the key. *)
Lemma main_script_with_mapping (d : list (string * json))
      (lines : list string) (s : state) :
  main_script E (Ok (JDict d)) lines s =
  main E (match lookup "anthropic_api_key" d with
          | Some k => k
          | None => JNull
          end) lines s.
Proof. reflexivity. Qed.

End Correctness.

(** * Scenarios *)

Lemma searching_restrained : restrained searching.
Proof.
  intros n url headers payload v. cbn [requests_post searching].
  unfold restrained_reply.
  destruct (is_follow_up payload); intros H; vm_compute in H;
    injection H as <-; reflexivity.
Qed.

Lemma first_failure_keeps_user_turn_witness :
  cycle (scripted [unavailable]) key "hello" initial =
  (Ok tt,
   mkState [user_message "hello"]
           [Printed thinking_line;
            Posted API_URL (request_headers key)
                   (request_payload [user_message "hello"] true);
            Printed (Fore_RED ++ "API request failed: " ++
                     "503 Server Error: Service Unavailable for url: " ++
                     API_URL ++ Style_RESET_ALL);
            Printed (Fore_YELLOW ++ "Response: overloaded" ++ Style_RESET_ALL);
            Printed no_response_line;
            Printed reset_hint_line]
           1).
Proof.
  apply (first_failure_keeps_user_turn (scripted [unavailable]) key "hello"
                                       initial).
  apply error_status. cbn. lia.
Defined.


Lemma rollback_leaves_user_turn_witness :
  exists s',
    cycle (scripted [ok_response cats_request; unavailable]) key
          "search for cats" initial = (Ok tt, s') /\
    conversation s' = [user_message "search for cats"].
Proof.
  destruct (rollback_leaves_user_turn
              (scripted [ok_response cats_request; unavailable]) key
              "search for cats" initial cats_request
              (tool_use_block "tu_1" "search_web"
                              (JDict [("query", JStr "cats")])) [])
    as (s' & Hcy & Hconv & _).
  - reflexivity.
  - reflexivity.
  - reflexivity.
  - reflexivity.
  - apply error_status. cbn. lia.
  - exists s'. split; [exact Hcy|exact Hconv].
Defined.


Lemma anomaly_appends_reply_witness :
  exists s',
    cycle (scripted [ok_response puzzled]) key "search for cats" initial =
    (Ok tt, s') /\
    conversation s' =
    [JDict [("role", JStr "user"); ("content", JStr "search for cats")];
     JDict [("role", JStr "assistant");
            ("content", JList [text_block "Let me see."])]] /\
    executions (trace s') = [] /\
    List.length (requests (trace s')) = 1 /\
    In (Printed anomaly_line) (trace s').
Proof.
  destruct (anomaly_appends_reply (scripted [ok_response puzzled]) key
                                  "search for cats" initial puzzled)
    as (s' & blocks & Hcy & Hc & Hconv & Hex & Hreq & _ & Hin);
    try reflexivity.
  injection Hc as <-.
  exists s'. split; [exact Hcy|]. split; [exact Hconv|].
  split; [exact Hex|]. split; [now rewrite Hreq|exact Hin].
Defined.

Lemma tool_request_is_first_block_witness :
  executions
    (trace (snd (cycle (scripted [ok_response cats_and_dogs_request;
                                  ok_response words])
                       key "cats and dogs" initial))) =
  [(JStr "search_web", JDict [("query", JStr "cats")])].
Proof.
  pose proof (tool_request_is_first_block
                (scripted [ok_response cats_and_dogs_request;
                           ok_response words])
                key "cats and dogs" initial cats_and_dogs_request
                eq_refl eq_refl) as H.
  cbv zeta in H. destruct H as [_ H].
  destruct (H (tool_use_block "tu_1" "search_web"
                              (JDict [("query", JStr "cats")]))
              [tool_use_block "tu_2" "search_web"
                              (JDict [("query", JStr "dogs")])]
              eq_refl eq_refl) as [Hex _].
  exact Hex.
Defined.

Lemma tool_result_is_forwarded_witness :
  requests
    (trace (snd (cycle (scripted [ok_response weather_request;
                                  ok_response words])
                       key "how is the weather?" initial))) =
  [request_payload
     [JDict [("role", JStr "user"); ("content", JStr "how is the weather?")]]
     true;
   request_payload
     [JDict [("role", JStr "user"); ("content", JStr "how is the weather?")];
      JDict [("role", JStr "assistant");
             ("content",
              JList [tool_use_block "tu_9" "get_weather" (JDict [])])];
      JDict [("role", JStr "user");
             ("content",
              JList [JDict [("type", JStr "tool_result");
                            ("tool_use_id", JStr "tu_9");
                            ("content",
                             JStr (render (JDict [("error",
                                     JStr "Unknown tool: get_weather")])));
                            ("is_error", JBool true)]])]]
     true] /\
  List.length
    (conversation (snd (cycle (scripted [ok_response weather_request;
                                         ok_response words])
                              key "how is the weather?" initial))) = 4.
Proof.
  pose proof (tool_result_is_forwarded
                (scripted [ok_response weather_request; ok_response words])
                key "how is the weather?" initial weather_request
                (tool_use_block "tu_9" "get_weather" (JDict [])) []
                eq_refl eq_refl eq_refl eq_refl) as H.
  cbv zeta in H. destruct H as (_ & Hreq & _ & Hconv).
  split; [exact Hreq|].
  rewrite (Hconv words eq_refl eq_refl eq_refl). reflexivity.
Defined.

Lemma is_error_iff_error_key_witness :
  (* an unknown tool: the result [execute_tool] returns holds the key *)
  (exists first,
      requests
        (trace (snd (cycle (scripted [ok_response weather_request;
                                      ok_response words])
                           key "how is the weather?" initial))) =
      [first;
       request_payload
         [JDict [("role", JStr "user");
                 ("content", JStr "how is the weather?")];
          JDict [("role", JStr "assistant");
                 ("content",
                  JList [tool_use_block "tu_9" "get_weather" (JDict [])])];
          JDict [("role", JStr "user");
                 ("content",
                  JList [JDict [("type", JStr "tool_result");
                                ("tool_use_id", JStr "tu_9");
                                ("content",
                                 JStr (render (JDict [("error",
                                         JStr "Unknown tool: get_weather")])));
                                ("is_error", JBool true)]])]]
         true]) /\
  (* a result that holds findings and, beside them, the key ['error'] *)
  requests
    (trace (snd (forward_tool_result
                   (scripted [ok_response words]) key cats_request []
                   (JStr "tu_1")
                   (JDict [("results", JList [JStr "a cat"]);
                           ("error", JNull)])
                   initial))) =
  [request_payload
     [JDict [("role", JStr "assistant");
             ("content", content_of cats_request)];
      JDict [("role", JStr "user");
             ("content",
              JList [JDict [("type", JStr "tool_result");
                            ("tool_use_id", JStr "tu_1");
                            ("content",
                             JStr (render (JDict [("results",
                                                   JList [JStr "a cat"]);
                                                  ("error", JNull)])));
                            ("is_error", JBool true)]])]]
     true].
Proof.
  destruct (is_error_iff_error_key
              (scripted [ok_response weather_request; ok_response words]) key)
    as [Hcycle _].
  destruct (is_error_iff_error_key (scripted [ok_response words]) key)
    as [_ Hany].
  split.
  - destruct (Hcycle "how is the weather?" initial weather_request
                     (tool_use_block "tu_9" "get_weather" (JDict [])) []
                     eq_refl eq_refl eq_refl eq_refl)
      as (d & is_error & Hd & Hreq & Hiff).
    injection Hd as <-.
    assert (Ht : is_error = true)
      by (apply Hiff; eexists; reflexivity).
    subst is_error. eexists. exact Hreq.
  - destruct (Hany cats_request (content_of cats_request) (JStr "tu_1")
                   [("results", JList [JStr "a cat"]); ("error", JNull)]
                   initial eq_refl)
      as (is_error & Hreq & Hiff).
    assert (Ht : is_error = true)
      by (apply Hiff; eexists; reflexivity).
    subst is_error. exact Hreq.
Defined.

Lemma execute_tool_never_raises_witness :
  tool_outcome (scripted []) 0 (JStr "get_weather") (JDict []) =
  JDict [("error", JStr "Unknown tool: get_weather")] /\
  tool_outcome (scripted []) 0 (JStr "search_web") (JList []) =
  JDict [("error",
          JStr "Error executing tool search_web: 'list' object has no attribute 'get'")].
Proof.
  split.
  - destruct (execute_tool_never_raises (scripted []) (JStr "get_weather")
                                        (JDict []) initial)
      as (_ & _ & H & _).
    exact (proj1 (H eq_refl)).
  - destruct (execute_tool_never_raises (scripted []) (JStr "search_web")
                                        (JList []) initial)
      as (_ & _ & _ & H).
    exact (proj1 (H (no_attribute (JList []) "get") initial initial
                    eq_refl eq_refl)).
Defined.

Lemma no_orphans_at_prompt_witness :
  no_orphans
    (conversation
       (snd (main searching key ["search for cats"; "reset"; "again"; "q"]
                  initial))).
Proof.
  apply (no_orphans_at_prompt searching key
                              ["search for cats"; "reset"; "again"; "q"]
                              initial).
  - exact searching_restrained.
  - vm_compute. exact I.
Defined.

Lemma restore_leaves_prefix_witness :
  exists s',
    restore [user_message "a"; user_message "b"]
            (mkState [user_message "a"] [] 0) = (Ok tt, s') /\
    conversation s' = [user_message "a"].
Proof.
  destruct (restore_leaves_prefix [user_message "a"; user_message "b"]
                                  (mkState [user_message "a"] [] 0))
    as (s' & Hrun & _ & _ & _ & _ & Hshort).
  exists s'. split; [exact Hrun|]. apply Hshort. cbn. lia.
Defined.

Lemma display_response_only_prints_witness :
  fst (display_response (scripted []) cats_request initial) = Ok tt.
Proof.
  destruct (display_response_only_prints (scripted []) cats_request initial)
    as (_ & _ & _ & _ & _ & H).
  exact (H eq_refl).
Defined.

Lemma display_response_shows_text_only_witness :
  display_response (scripted []) dogs_request initial = (Ok tt, initial).
Proof.
  apply (display_response_shows_text_only (scripted []) dogs_request initial);
    reflexivity.
Defined.

Lemma format_response_plain_witness :
  format_response (JStr "no escape here") = JStr "no escape here".
Proof.
  apply format_response_plain. intros s H. injection H as <-. reflexivity.
Defined.

Lemma search_web_result_witness :
  py_get (tool_outcome (scripted []) 0 (JStr "search_web") (JDict []))
         "query" JNull = Ok (JStr "").
Proof.
  destruct (search_web_result (scripted []) 0 (JDict [])) as (_ & H).
  destruct (H [] eq_refl) as (Hq & _). exact Hq.
Defined.

Lemma send_message_returns_body_witness :
  send_message (scripted [list_body]) key [user_message "hello"] true initial =
  (Ok (JList [JInt 1]),
   mkState []
           [Posted API_URL (request_headers key)
                   (request_payload [user_message "hello"] true)]
           1).
Proof.
  apply (send_message_returns_body
           (scripted [list_body]) key [user_message "hello"] true initial
           (mkResponse 200 "OK" (render (JList [JInt 1])) (inl (JList [JInt 1])))).
  - reflexivity.
  - cbn. lia.
  - reflexivity.
Defined.


Lemma empty_reply_is_no_response_witness :
  cycle (scripted [empty_body]) key "hello" initial =
  (Ok tt,
   mkState [user_message "hello"]
           [Printed thinking_line;
            Posted API_URL (request_headers key)
                   (request_payload [user_message "hello"] true);
            Printed no_response_line; Printed reset_hint_line]
           1).
Proof.
  apply (empty_reply_is_no_response (scripted [empty_body]) key "hello"
                                    initial (JDict []));
    reflexivity.
Defined.

Lemma reply_without_get_is_reported_witness :
  cycle (scripted [list_body]) key "hello" initial =
  (Ok tt,
   mkState [user_message "hello"]
           [Printed thinking_line;
            Posted API_URL (request_headers key)
                   (request_payload [user_message "hello"] true);
            Printed (Fore_RED ++ "An error occurred: " ++
                     "'list' object has no attribute 'get'" ++
                     Style_RESET_ALL);
            Printed reset_hint_line]
           1).
Proof.
  apply (reply_without_get_is_reported (scripted [list_body]) key "hello"
                                       initial (JList [JInt 1])).
  - reflexivity.
  - reflexivity.
  - intros d H. discriminate H.
Defined.

Lemma empty_follow_up_rolls_back_witness :
  exists s',
    cycle (scripted [ok_response cats_request; empty_body]) key
          "search for cats" initial = (Ok tt, s') /\
    conversation s' = [user_message "search for cats"].
Proof.
  destruct (empty_follow_up_rolls_back
              (scripted [ok_response cats_request; empty_body]) key
              "search for cats" initial cats_request
              (tool_use_block "tu_1" "search_web"
                              (JDict [("query", JStr "cats")])) []
              (JDict []))
    as (s' & Hcy & Hconv & _); try reflexivity.
  exists s'. split; [exact Hcy|exact Hconv].
Defined.

Lemma failed_input_is_sent_with_the_next_witness :
  exists new,
    trace (snd (cycle (scripted [unavailable]) key "again"
                      (snd (cycle (scripted [unavailable]) key "hello"
                                  initial)))) =
    (trace (snd (cycle (scripted [unavailable]) key "hello" initial)) ++
     Printed thinking_line ::
     Posted API_URL (request_headers key)
            (request_payload [user_message "hello"; user_message "again"]
                             true) :: new)%list.
Proof.
  apply (failed_input_is_sent_with_the_next (scripted [unavailable]) key
                                            "hello" "again" initial).
  apply error_status. cbn. lia.
Defined.

Lemma reset_clears_conversation_witness :
  conversation
    (snd (main_loop (scripted [ok_response words]) key ["hello"; "RESET"]
                    initial)) = [].
Proof.
  pose proof (reset_clears_conversation
                (scripted [ok_response words]) key ["hello"] [] "RESET"
                initial greeted) as H.
  cbn [app] in H. rewrite H.
  - reflexivity.
  - vm_compute. reflexivity.
  - reflexivity.
Defined.

Lemma exit_ends_the_loop_witness :
  fst (main_loop (scripted [ok_response words]) key
                 ["hello"; "Quit"; "never read"] initial) = Ok tt.
Proof.
  pose proof (exit_ends_the_loop
                (scripted [ok_response words]) key ["hello"] ["never read"]
                "Quit" initial greeted) as H.
  cbn [app] in H. rewrite H.
  - reflexivity.
  - vm_compute. reflexivity.
  - reflexivity.
Defined.

Lemma no_key_no_chat_witness :
  exists line,
    main_script (scripted []) (Ok JNull) ["hello"] initial =
    (Raise exit_1, log (map Printed (banner ++ [line])) initial).
Proof.
  apply no_key_no_chat. right. left. exists JNull.
  split; [reflexivity|]. intros d H. discriminate H.
Defined.

Lemma thinking_is_shown_first_witness :
  (exists rest,
      display_content (scripted []) pondering initial =
      (Ok tt,
       log (Printed (Fore_YELLOW ++ "Claude's thinking: cats first" ++
                     Style_RESET_ALL) :: map Printed rest) initial) /\
      List.length rest <= 1) /\
  (* a section set off by no-break spaces, U+00A0 *)
  (exists rest,
      display_content
        (scripted [])
        (text_block ("<thinking>" ++ utf8 [194; 160] ++ "plan" ++
                     utf8 [194; 160] ++ "</thinking>Done."))
        initial =
      (Ok tt,
       log (Printed (Fore_YELLOW ++ "Claude's thinking: plan" ++
                     Style_RESET_ALL) :: map Printed rest) initial) /\
      List.length rest <= 1).
Proof.
  split.
  - apply (thinking_is_shown_first
             (scripted [])
             [("type", JStr "text");
              ("text",
               JStr "Well. <thinking> cats first </thinking>Cats sleep a lot.")]
             "Well. " " cats first " "Cats sleep a lot." initial);
      reflexivity.
  - apply (thinking_is_shown_first
             (scripted [])
             [("type", JStr "text");
              ("text",
               JStr ("<thinking>" ++ utf8 [194; 160] ++ "plan" ++
                     utf8 [194; 160] ++ "</thinking>Done."))]
             "" (utf8 [194; 160] ++ "plan" ++ utf8 [194; 160]) "Done."
             initial);
      reflexivity.
Defined.


(** C2 as it is stated fails: three runs of [main] that end at the prompt
    with an orphan tool turn.  The reply to a tool's result asks for another
    tool; a reply holds two tool-invocation blocks; a reply holds a
    tool-invocation block and another stop reason. *)
Lemma orphan_tool_turns_reachable :
  (catchable (fst (one_line asks_again)) /\
   ~ no_orphans (conversation (snd (one_line asks_again)))) /\
  (catchable (fst (one_line asks_for_two)) /\
   ~ no_orphans (conversation (snd (one_line asks_for_two)))) /\
  (catchable (fst (one_line cuts_short)) /\
   ~ no_orphans (conversation (snd (one_line cuts_short)))).
Proof.
  split; [|split]; (split; [vm_compute; reflexivity|]); intros H;
    match type of H with
    | no_orphans ?c =>
        let c' := eval vm_compute in c in change (no_orphans c') in H
    end; cbn [no_orphans] in H.
  - destruct H as (_ & _ & _ & H & _).
    apply (H (JStr "tu_2")). unfold invokes. eexists _, _, _.
    do 3 (split; [reflexivity|]). split; [now left|]. split; reflexivity.
  - destruct H as (_ & H & _).
    destruct (H (JStr "tu_2")) as (d & b & Hd & _ & Hc & _ & Hid).
    + unfold invokes. eexists _, _, _.
      do 3 (split; [reflexivity|]). split; [right; now left|].
      split; reflexivity.
    + injection Hd as <-. injection Hc as <-. discriminate Hid.
  - destruct H as (_ & H & _).
    apply (H (JStr "tu_3")). unfold invokes. eexists _, _, _.
    do 3 (split; [reflexivity|]). split; [now left|]. split; reflexivity.
Qed.
